(** * AI-todo: the browser client [static/js/app.js]

    A shallow embedding of the class [AITodoApp]: its strings, its two
    markup templates, the page state it reads and writes, and its
    asynchronous methods as resumable calls driven by user events and
    by the arrival of network replies. *)

From Stdlib Require Import List ZArith NArith Bool Lia String Ascii.
From Stdlib Require Import DecimalString.
From Stdlib Require DecimalPos.
Import ListNotations.

Local Open Scope N_scope.
Local Open Scope list_scope.

(** ** JavaScript strings

    A JavaScript string is a sequence of UTF-16 code units; [length] of
    the list is the [.length] the program tests. *)
Module JsString.

Definition jsstring := list N.

(** A literal of the program, written as a Rocq string of ASCII. *)
Definition lit (s : string) : jsstring :=
  map N_of_ascii (list_ascii_of_string s).

(** Code unit of the double quote, and literals that contain it: the text of
    a template is written with a backtick wherever the source has a double
    quote (no template of the program contains a backtick of its own). *)
Definition dquote : N := 34.
Definition backtick : N := 96.

Definition tpl (s : string) : jsstring :=
  map (fun c => if c =? backtick then dquote else c) (lit s).

Definition concat (l : list jsstring) : jsstring := List.concat l.

(** ECMAScript [WhiteSpace] and [LineTerminator] code points, the ones
    [String.prototype.trim] strips (all lie in the basic plane). *)
Definition isWhiteSpace (c : N) : bool :=
  (c =? 9) || (c =? 11) || (c =? 12) || (c =? 32) || (c =? 160)
  || (c =? 5760) || ((8192 <=? c) && (c <=? 8202))
  || (c =? 8239) || (c =? 8287) || (c =? 12288) || (c =? 65279).

Definition isLineTerminator (c : N) : bool :=
  (c =? 10) || (c =? 13) || (c =? 8232) || (c =? 8233).

Definition isTrimmed (c : N) : bool := isWhiteSpace c || isLineTerminator c.

Fixpoint trimStart (s : jsstring) : jsstring :=
  match s with
  | [] => []
  | c :: r => if isTrimmed c then trimStart r else s
  end.

Definition trimEnd (s : jsstring) : jsstring := rev (trimStart (rev s)).

(** [String.prototype.trim] *)
Definition trim (s : jsstring) : jsstring := trimEnd (trimStart s).

(** The empty string is the only falsy string. *)
Definition truthy (s : jsstring) : bool :=
  match s with [] => false | _ :: _ => true end.

(** [o || dflt] for a field that is absent or a string. *)
Definition or_else (o : option jsstring) (dflt : jsstring) : jsstring :=
  match o with
  | Some s => if truthy s then s else dflt
  | None => dflt
  end.

(** Decimal text of an integer Number, as a template prints it.  This is
    what the program prints for the integers that a Number holds exactly
    and prints digit by digit, those from [-2^53] to [2^53]; the counters
    and the ids of tasks are taken in that range. *)
Definition of_Z (z : Z) : jsstring := lit (NilZero.string_of_int (Z.to_int z)).

End JsString.
Import JsString.

(** ** Reading and writing character data of HTML *)
Module Html.

Definition amp : N := 38.
Definition lt : N := 60.
Definition gt : N := 62.
Definition nbsp : N := 160.

(** What the serialisation of a text node does to one code unit
    (the escaping of the HTML fragment serialisation algorithm, outside
    attribute mode). *)
Definition escapeChar (c : N) : jsstring :=
  if c =? amp then lit "&amp;"
  else if c =? nbsp then lit "&nbsp;"
  else if c =? lt then lit "&lt;"
  else if c =? gt then lit "&gt;"
  else [c].

(** [escapeHtml(text)]: a fresh [div] gets [text] as its [textContent] and its
    [innerHTML] is read back, which serialises the one text node. *)
Definition escapeHtml (text : jsstring) : jsstring :=
  flat_map escapeChar text.

Fixpoint starts_with (p s : jsstring) : bool :=
  match p, s with
  | [], _ => true
  | a :: p', b :: s' => (a =? b) && starts_with p' s'
  | _ :: _, [] => false
  end.

(** The character reference that starts after an ampersand, among the four
    the serialiser writes: the code unit it stands for and the number of
    code units to skip. *)
Definition reference (r : jsstring) : option (N * nat) :=
  if starts_with (lit "amp;") r then Some (amp, 4%nat)
  else if starts_with (lit "nbsp;") r then Some (nbsp, 5%nat)
  else if starts_with (lit "lt;") r then Some (lt, 3%nat)
  else if starts_with (lit "gt;") r then Some (gt, 3%nat)
  else None.

(** How a parser in its data state reads the input: the characters of the
    text it collects (references decoded) up to the first [<], where a tag
    (or other markup) opens, and the input left from there on.  [skip]
    counts the code units of a reference still to pass over. *)
Fixpoint read_text (skip : nat) (s : jsstring) : jsstring * jsstring :=
  match s with
  | [] => ([], [])
  | c :: r =>
      match skip with
      | S k => read_text k r
      | O =>
          if c =? lt then ([], s)
          else if c =? amp then
            match reference r with
            | Some (ch, n) => let (t, rest) := read_text n r in (ch :: t, rest)
            | None => let (t, rest) := read_text 0 r in (c :: t, rest)
            end
          else let (t, rest) := read_text 0 r in (c :: t, rest)
      end
  end.

Definition data_text (s : jsstring) : jsstring * jsstring := read_text 0 s.

(** No code unit of [s] opens or closes a tag. *)
Definition tag_free (s : jsstring) : bool :=
  forallb (fun c => negb (c =? lt) && negb (c =? gt)) s.

End Html.
Import Html.

(** ** The states of the HTML tokenizer

    Where the parser of [innerHTML] stands after each code unit: in
    character data, in a tag, in an attribute name or value, or in a comment.
    The transitions are those of the tokenizer of the HTML standard with
    its "reconsume" steps carried out, for the content the templates of the
    program give it; tokens are not built, and character references, which
    never change the state, are passed over.  A DOCTYPE is read as a bogus
    comment (both end at the next [>]).  Left out: the switches to raw text
    that the tree builder makes after the start tags [script], [style],
    [textarea], [title] and the like, and CDATA sections in foreign
    content; no template has such a tag. *)
Module Tokenizer.

Inductive quote := DoubleQuoted | SingleQuoted | Unquoted.

Inductive state :=
| Data                 (* character data: text *)
| TagOpen              (* after [<] *)
| EndTagOpen           (* after [</] *)
| TagName
| BeforeAttrName
| AttrName
| AfterAttrName
| BeforeAttrValue      (* after the [=] of an attribute *)
| AttrValue (q : quote)
| AfterAttrValue       (* after the closing quote of a value *)
| SelfClosing          (* after [/] in a tag *)
| MarkupDecl           (* after [<!] *)
| MarkupDeclDash       (* after [<!-] *)
| BogusComment
| CommentStart         (* after [<!--] *)
| CommentStartDash
| Comment
| CommentEndDash
| CommentEnd
| CommentEndBang.

(** Tab, line feed, form feed, space; a carriage return reaches the
    tokenizer as a line feed. *)
Definition isSpace (c : N) : bool :=
  (c =? 9) || (c =? 10) || (c =? 12) || (c =? 13) || (c =? 32).

Definition isAlpha (c : N) : bool :=
  ((65 <=? c) && (c <=? 90)) || ((97 <=? c) && (c <=? 122)).

Definition slash : N := 47.
Definition equals : N := 61.
Definition bang : N := 33.
Definition dash : N := 45.
Definition question : N := 63.
Definition apostrophe : N := 39.

(** The state after the code unit [c] is read in the state [st]. *)
Definition next (st : state) (c : N) : state :=
  match st with
  | Data => if c =? lt then TagOpen else Data
  | TagOpen =>
      if c =? bang then MarkupDecl
      else if c =? slash then EndTagOpen
      else if isAlpha c then TagName
      else if c =? question then BogusComment
      else if c =? lt then TagOpen
      else Data
  | EndTagOpen =>
      if isAlpha c then TagName
      else if c =? gt then Data
      else BogusComment
  | TagName =>
      if isSpace c then BeforeAttrName
      else if c =? slash then SelfClosing
      else if c =? gt then Data
      else TagName
  | BeforeAttrName =>
      if isSpace c then BeforeAttrName
      else if c =? slash then SelfClosing
      else if c =? gt then Data
      else AttrName
  | AttrName =>
      if isSpace c then AfterAttrName
      else if c =? slash then SelfClosing
      else if c =? gt then Data
      else if c =? equals then BeforeAttrValue
      else AttrName
  | AfterAttrName =>
      if isSpace c then AfterAttrName
      else if c =? slash then SelfClosing
      else if c =? equals then BeforeAttrValue
      else if c =? gt then Data
      else AttrName
  | BeforeAttrValue =>
      if isSpace c then BeforeAttrValue
      else if c =? dquote then AttrValue DoubleQuoted
      else if c =? apostrophe then AttrValue SingleQuoted
      else if c =? gt then Data
      else AttrValue Unquoted
  | AttrValue DoubleQuoted =>
      if c =? dquote then AfterAttrValue else AttrValue DoubleQuoted
  | AttrValue SingleQuoted =>
      if c =? apostrophe then AfterAttrValue else AttrValue SingleQuoted
  | AttrValue Unquoted =>
      if isSpace c then BeforeAttrName
      else if c =? gt then Data
      else AttrValue Unquoted
  | AfterAttrValue =>
      if isSpace c then BeforeAttrName
      else if c =? slash then SelfClosing
      else if c =? gt then Data
      else AttrName
  | SelfClosing =>
      if c =? gt then Data
      else if isSpace c then BeforeAttrName
      else if c =? slash then SelfClosing
      else AttrName
  | MarkupDecl =>
      if c =? dash then MarkupDeclDash
      else if c =? gt then Data
      else BogusComment
  | MarkupDeclDash =>
      if c =? dash then CommentStart
      else if c =? gt then Data
      else BogusComment
  | BogusComment => if c =? gt then Data else BogusComment
  | CommentStart =>
      if c =? dash then CommentStartDash
      else if c =? gt then Data
      else Comment
  | CommentStartDash =>
      if c =? dash then CommentEnd
      else if c =? gt then Data
      else Comment
  | Comment => if c =? dash then CommentEndDash else Comment
  | CommentEndDash => if c =? dash then CommentEnd else Comment
  | CommentEnd =>
      if c =? gt then Data
      else if c =? bang then CommentEndBang
      else if c =? dash then CommentEnd
      else Comment
  | CommentEndBang =>
      if c =? dash then CommentEndDash
      else if c =? gt then Data
      else Comment
  end.

(** The state after the code units of [s] are read from the state [st]. *)
Definition scan (st : state) (s : jsstring) : state := fold_left next s st.

(** No code unit of [s] is [<]: read as character data, [s] opens
    nothing. *)
Definition opens_nothing (s : jsstring) : bool :=
  forallb (fun c => negb (c =? lt)) s.

End Tokenizer.
Import Tokenizer.

(** ** Data model *)

(** A task as [GET /api/tasks] returns it; [date] and [time] may be absent
    or null. *)
Module Task.
Record t := mk {
  id : Z;
  title : jsstring;
  date : option jsstring;
  time : option jsstring;
  original_text : jsstring;
  completed : bool
}.
End Task.

(** A JSON number as [showAIPreview] observes it: whether it is truthy
    (neither zero nor NaN), and the decimal text of [Math.round(n * 100)].
    Binary floating point itself is not modelled. *)
Module Number.
Record t := mk {
  truthy : bool;
  percent : jsstring
}.
End Number.

(** The [parsed] object of the interpretation service. *)
Module Parsed.
Record t := mk {
  title : jsstring;
  date : option jsstring;
  time : option jsstring;
  confidence : option Number.t
}.
End Parsed.

(** A JSON body on which the client can read properties, by the fields it
    reads: [success] by its truthiness, the others absent or present.  A
    body that is a number, a string, a boolean or an array has none of the
    fields (reading one gives [undefined]); the body [null] is a case of its
    own in [reply].  [tasks], when it is truthy, is an array of tasks, as
    the interface declares it. *)
Module Body.
Record t := mk {
  success : bool;
  parsed : option Parsed.t;
  error : option jsstring;
  tasks : option (list Task.t)
}.
End Body.

(** What an awaited [fetch(...)] followed by [response.json()] gives back:
    one of the two promises rejects (transport failure, body that is not
    JSON) with an error carrying [message], or the body is there.  The body
    [null] is well-formed JSON too: the first property the caller reads of
    it raises a TypeError.  The program runs no statement between the two
    awaits, so they are one suspension here. *)
Inductive reply :=
| Failed (message : jsstring)
| Json (b : Body.t)
| JsonNull.

(** Message of the TypeError that reading the property [name] of [null]
    raises (the wording is the engine's; V8's is taken). *)
Definition cannotReadNull (name : string) : jsstring :=
  lit "Cannot read properties of null (reading '" ++ lit name ++ lit "')".

(** The calls to [fetch], with the JSON sent. *)
Inductive request :=
| ParseTask (text : jsstring)
| GetTasks
| CreateTask (title : jsstring) (date time : option jsstring)
             (original_text : jsstring)
| ToggleTask (taskId : Z)
| DeleteTask (taskId : Z).

(** Truthiness of an optional string field. *)
Definition present (o : option jsstring) : bool :=
  match o with Some s => truthy s | None => false end.

(** The text a template prints for a field it has found truthy. *)
Definition text_of (o : option jsstring) : jsstring :=
  match o with Some s => s | None => [] end.

(** ** The two markup templates *)
Module Template.

(** A line break of a template followed by [n] spaces of indentation. *)
Definition nl (n : nat) : jsstring := 10 :: repeat 32 n.

(** [previewHTML] of [showAIPreview] (lines 52-65). *)
Definition previewHTML (parsed : Parsed.t) : jsstring :=
  concat
    [ lit "<strong>"; Parsed.title parsed; lit "</strong>";
      if present (Parsed.date parsed)
      then concat [tpl " <span class=`badge bg-success`>";
                   text_of (Parsed.date parsed); lit "</span>"]
      else [];
      if present (Parsed.time parsed)
      then concat [tpl " <span class=`badge bg-info`>";
                   text_of (Parsed.time parsed); lit "</span>"]
      else [];
      match Parsed.confidence parsed with
      | Some c =>
          if Number.truthy c
          then concat [tpl " <small class=`text-muted`>(";
                       Number.percent c; lit "% confidence)</small>"]
          else []
      | None => []
      end ].

Definition completedClass (task : Task.t) : jsstring :=
  if Task.completed task then lit "completed" else [].

Definition checkIcon (task : Task.t) : jsstring :=
  if Task.completed task then lit "fas fa-check-circle" else lit "far fa-circle".

Definition dateBadge (task : Task.t) : jsstring :=
  if present (Task.date task)
  then concat [tpl "<span class=`task-badge badge-date`><i class=`fas fa-calendar me-1`></i>";
               text_of (Task.date task); lit "</span>"]
  else [].

Definition timeBadge (task : Task.t) : jsstring :=
  if present (Task.time task)
  then concat [tpl "<span class=`task-badge badge-time`><i class=`fas fa-clock me-1`></i>";
               text_of (Task.time task); lit "</span>"]
  else [].

(** The template of [createTaskHTML] up to the title. *)
Definition head (task : Task.t) : jsstring :=
  concat
    [ nl 12; tpl "<div class=`task-item "; completedClass task;
      tpl "` data-task-id=`"; of_Z (Task.id task); tpl "`>";
      nl 16; tpl "<div class=`d-flex justify-content-between align-items-start`>";
      nl 20; tpl "<div class=`flex-grow-1`>";
      nl 24; tpl "<h6 class=`task-title`>" ].

(** From the end of the title to the opening quote of the original text. *)
Definition middle (task : Task.t) : jsstring :=
  concat
    [ lit "</h6>";
      nl 24;
      nl 24; tpl "<div class=`task-meta`>";
      nl 28; dateBadge task;
      nl 28; timeBadge task;
      nl 24; lit "</div>";
      nl 24;
      nl 24; tpl "<div class=`task-original`>";
      nl 28; tpl "<i class=`fas fa-quote-left me-1`></i>";
      nl 28; [dquote] ].

(** From the closing quote of the original text to the end. *)
Definition tail (task : Task.t) : jsstring :=
  concat
    [ [dquote];
      nl 24; lit "</div>";
      nl 20; lit "</div>";
      nl 20;
      nl 20; tpl "<div class=`btn-group btn-group-sm ms-3` role=`group`>";
      nl 24; tpl "<button type=`button` class=`btn btn-outline-success toggle-btn` data-task-id=`";
      of_Z (Task.id task); tpl "`>";
      nl 28; tpl "<i class=`"; checkIcon task; tpl "`></i>";
      nl 24; lit "</button>";
      nl 24; tpl "<button type=`button` class=`btn btn-outline-danger delete-btn` data-task-id=`";
      of_Z (Task.id task); tpl "`>";
      nl 28; tpl "<i class=`fas fa-trash`></i>";
      nl 24; lit "</button>";
      nl 20; lit "</div>";
      nl 16; lit "</div>";
      nl 12; lit "</div>";
      nl 8 ].

(** [createTaskHTML(task)] (lines 178-210). *)
Definition createTaskHTML (task : Task.t) : jsstring :=
  concat
    [ head task; escapeHtml (Task.title task); middle task;
      escapeHtml (Task.original_text task); tail task ].

(** The inline placeholder of [renderTasks] (line 166). *)
Definition noTasksYet : jsstring :=
  tpl "<div class=`text-center py-4 text-muted`>No tasks yet. Add your first one above.</div>".

End Template.
Import Template.

(** ** The page and the application object *)
Module Page.

(** Where the element [#emptyState] hangs in the document. *)
Inductive place := InContainer | Elsewhere.

(** The element [#emptyState] while it is in the document: its
    [style.display] and its place. *)
Record emptyStateEl := mkEmptyState {
  display : jsstring;
  where_ : place
}.

(** The state the methods read and write: the field [this.tasks] and the
    elements the program looks up by id.  [tasksContainer] is the markup
    given to [#tasksContainer] through [innerHTML]; an [#emptyState] element
    appended to the container is recorded in [emptyState].  Markup is kept
    as the text that was written: the elements it makes are not followed, so
    [emptyState] is the element that [getElementById] finds only as long as
    no markup written through [innerHTML] holds an element of that id
    (unescaped text of the services that holds a tag could).  The four
    counters hold their [textContent].  [alerts] lists the calls of
    [showAlert] (message, type) and [console] those of [console.error]
    (label, message of the error), oldest first; the timer that removes an
    alert after three seconds is left out. *)
Record t := mk {
  tasks : list Task.t;
  taskInput : jsstring;
  aiPreviewHidden : bool;
  aiPreviewText : jsstring;
  tasksContainer : jsstring;
  emptyState : option emptyStateEl;
  taskCount : jsstring;
  totalTasks : jsstring;
  completedTasks : jsstring;
  pendingTasks : jsstring;
  loadingHidden : bool;
  alerts : list (jsstring * jsstring);
  console : list (jsstring * jsstring)
}.

Definition set_tasks (l : list Task.t) (p : t) : t :=
  mk l (taskInput p) (aiPreviewHidden p) (aiPreviewText p) (tasksContainer p)
     (emptyState p) (taskCount p) (totalTasks p) (completedTasks p)
     (pendingTasks p) (loadingHidden p) (alerts p) (console p).

Definition set_taskInput (v : jsstring) (p : t) : t :=
  mk (tasks p) v (aiPreviewHidden p) (aiPreviewText p) (tasksContainer p)
     (emptyState p) (taskCount p) (totalTasks p) (completedTasks p)
     (pendingTasks p) (loadingHidden p) (alerts p) (console p).

Definition set_aiPreviewHidden (b : bool) (p : t) : t :=
  mk (tasks p) (taskInput p) b (aiPreviewText p) (tasksContainer p)
     (emptyState p) (taskCount p) (totalTasks p) (completedTasks p)
     (pendingTasks p) (loadingHidden p) (alerts p) (console p).

Definition set_aiPreviewText (v : jsstring) (p : t) : t :=
  mk (tasks p) (taskInput p) (aiPreviewHidden p) v (tasksContainer p)
     (emptyState p) (taskCount p) (totalTasks p) (completedTasks p)
     (pendingTasks p) (loadingHidden p) (alerts p) (console p).

Definition set_list (html : jsstring) (e : option emptyStateEl) (p : t) : t :=
  mk (tasks p) (taskInput p) (aiPreviewHidden p) (aiPreviewText p) html
     e (taskCount p) (totalTasks p) (completedTasks p)
     (pendingTasks p) (loadingHidden p) (alerts p) (console p).

Definition set_counters (count total completed pending : jsstring) (p : t) : t :=
  mk (tasks p) (taskInput p) (aiPreviewHidden p) (aiPreviewText p)
     (tasksContainer p) (emptyState p) count total completed pending
     (loadingHidden p) (alerts p) (console p).

Definition set_loadingHidden (b : bool) (p : t) : t :=
  mk (tasks p) (taskInput p) (aiPreviewHidden p) (aiPreviewText p)
     (tasksContainer p) (emptyState p) (taskCount p) (totalTasks p)
     (completedTasks p) (pendingTasks p) b (alerts p) (console p).

Definition set_alerts (l : list (jsstring * jsstring)) (p : t) : t :=
  mk (tasks p) (taskInput p) (aiPreviewHidden p) (aiPreviewText p)
     (tasksContainer p) (emptyState p) (taskCount p) (totalTasks p)
     (completedTasks p) (pendingTasks p) (loadingHidden p) l (console p).

Definition set_console (l : list (jsstring * jsstring)) (p : t) : t :=
  mk (tasks p) (taskInput p) (aiPreviewHidden p) (aiPreviewText p)
     (tasksContainer p) (emptyState p) (taskCount p) (totalTasks p)
     (completedTasks p) (pendingTasks p) (loadingHidden p) (alerts p) l.

End Page.

(** ** Synchronous methods: the projector and the reporter *)
Module Sync.
Import Page.

(** [showAlert(message, type)] (lines 291-310). *)
Definition showAlert (message type : jsstring) (p : Page.t) : Page.t :=
  set_alerts (alerts p ++ [(message, type)]) p.

(** [console.error(label, error)] *)
Definition consoleError (label message : jsstring) (p : Page.t) : Page.t :=
  set_console (console p ++ [(label, message)]) p.

(** [showLoading(show)] (lines 282-289): the class [d-none] is removed to
    show the indicator and added to hide it. *)
Definition showLoading (show : bool) (p : Page.t) : Page.t :=
  set_loadingHidden (negb show) p.

(** [this.tasks.map(task => this.createTaskHTML(task)).join('')] *)
Definition tasksHTML (l : list Task.t) : jsstring :=
  concat (map createTaskHTML l).

(** [renderTasks()] (lines 154-176).  An [#emptyState] element found in the
    document is first hidden.  With no task it is shown again and becomes the
    only child of the container, or, when the document has no such element,
    the container gets the inline placeholder.  With tasks the container gets
    their markup, which takes an [#emptyState] that was its child out of the
    document. *)
Definition renderTasks (p : Page.t) : Page.t :=
  let hidden :=
    match emptyState p with
    | Some e => Some (mkEmptyState (lit "none") (where_ e))
    | None => None
    end in
  match tasks p with
  | [] =>
      match hidden with
      | Some _ => set_list [] (Some (mkEmptyState (lit "block") InContainer)) p
      | None => set_list noTasksYet None p
      end
  | _ :: _ =>
      set_list (tasksHTML (tasks p))
        match hidden with
        | Some (mkEmptyState d Elsewhere) => Some (mkEmptyState d Elsewhere)
        | _ => None
        end p
  end.

(** The three numbers of [updateStats]. *)
Definition total (l : list Task.t) : Z := Z.of_nat (List.length l).
Definition completed (l : list Task.t) : Z :=
  Z.of_nat (List.length (filter Task.completed l)).
Definition pending (l : list Task.t) : Z := (total l - completed l)%Z.

(** [updateStats()] (lines 271-280). *)
Definition updateStats (p : Page.t) : Page.t :=
  let l := tasks p in
  set_counters (of_Z (total l)) (of_Z (total l)) (of_Z (completed l))
               (of_Z (pending l)) p.

End Sync.

(** ** Asynchronous methods

    The event loop runs one handler at a time, to its next [await] or to its
    end.  A method that awaits a reply leaves a continuation behind; the
    arrival of the reply resumes it.  Replies arrive in any order. *)
Module App.
Import Page Sync.

(** The points where a method waits for a reply. *)
Inductive cont :=
| AwaitPreview                   (* showAIPreview, lines 40-48 *)
| AwaitParse (text : jsstring)   (* addTask, lines 91-99; [text] is its local *)
| AwaitAdd                       (* addTask, lines 106-119 *)
| AwaitTasks                     (* loadTasks, lines 140-141 *)
| AwaitToggle                    (* toggleTask, lines 234-238 *)
| AwaitDelete.                   (* deleteTask, lines 253-257 *)

(** The page, every [fetch] issued so far (oldest first), and the calls
    that wait, each under the position of its request in [net]. *)
Record t := mk {
  page : Page.t;
  net : list request;
  pending : list (nat * cont)
}.

Definition on_page (f : Page.t -> Page.t) (s : t) : t :=
  mk (f (page s)) (net s) (pending s).

(** [await fetch(...)] then [await response.json()]: the request goes out
    and the caller is suspended at [k]. *)
Definition fetch (r : request) (k : cont) (s : t) : t :=
  mk (page s) (net s ++ [r]) (pending s ++ [(List.length (net s), k)]).

(** [showAIPreview(text)] up to its first await (lines 30-46). *)
Definition showAIPreview (text : jsstring) (s : t) : t :=
  if negb (truthy text) || (List.length text <? 3)%nat
  then on_page (set_aiPreviewHidden true) s
  else fetch (ParseTask text) AwaitPreview s.

(** [showAIPreview] from the reply on (lines 48-75). *)
Definition showAIPreview_resume (r : reply) (s : t) : t :=
  match r with
  | Json data =>
      match Body.success data, Body.parsed data with
      | true, Some parsed =>
          on_page (fun p => set_aiPreviewHidden false
                              (set_aiPreviewText (previewHTML parsed) p)) s
      | _, _ => on_page (set_aiPreviewHidden true) s
      end
  | Failed message =>
      on_page (fun p => set_aiPreviewHidden true
                          (consoleError (lit "Error parsing task:") message p)) s
  | JsonNull =>
      on_page (fun p => set_aiPreviewHidden true
                          (consoleError (lit "Error parsing task:")
                             (cannotReadNull "success") p)) s
  end.

(** [loadTasks()] up to its await (lines 138-141). *)
Definition loadTasks (s : t) : t := fetch GetTasks AwaitTasks s.

(** [loadTasks] from the reply on (lines 143-151). *)
Definition loadTasks_resume (r : reply) (s : t) : t :=
  match r with
  | Json data =>
      match Body.tasks data with
      | Some l => on_page (fun p => updateStats (renderTasks (set_tasks l p))) s
      | None => s
      end
  | Failed message =>
      on_page (fun p => showAlert (lit "Error loading tasks") (lit "danger")
                          (consoleError (lit "Error loading tasks:") message p)) s
  | JsonNull =>
      on_page (fun p => showAlert (lit "Error loading tasks") (lit "danger")
                          (consoleError (lit "Error loading tasks:")
                             (cannotReadNull "tasks") p)) s
  end.

(** The [catch] and [finally] blocks of [addTask] (lines 130-135), entered
    with an error whose message is [message]. *)
Definition addTask_catch (message : jsstring) (s : t) : t :=
  on_page (fun p =>
             showLoading false
               (showAlert (lit "Error adding task: " ++ message) (lit "danger")
                  (consoleError (lit "Error adding task:") message p))) s.

(** [addTask()] up to its first await (lines 78-97). *)
Definition addTask (s : t) : t :=
  let text := trim (taskInput (page s)) in
  if negb (truthy text)
  then on_page (showAlert (lit "Please enter a task") (lit "warning")) s
  else fetch (ParseTask text) (AwaitParse text) (on_page (showLoading true) s).

(** Message of the TypeError that reading [parseData.parsed.title] raises
    when [parsed] is missing (the wording is the engine's). *)
Definition cannotReadTitle : jsstring :=
  lit "Cannot read properties of undefined (reading 'title')".

(** [addTask] from the reply of the interpretation service to its second
    await (lines 99-117). *)
Definition addTask_parsed (text : jsstring) (r : reply) (s : t) : t :=
  match r with
  | Json parseData =>
      if negb (Body.success parseData)
      then addTask_catch (or_else (Body.error parseData) (lit "Failed to parse task")) s
      else
        match Body.parsed parseData with
        | Some parsed =>
            fetch (CreateTask (Parsed.title parsed) (Parsed.date parsed)
                              (Parsed.time parsed) text) AwaitAdd s
        | None => addTask_catch cannotReadTitle s
        end
  | Failed message => addTask_catch message s
  | JsonNull => addTask_catch (cannotReadNull "success") s
  end.

(** [addTask] from the reply of the persistence service on
    (lines 119-135). *)
Definition addTask_added (r : reply) (s : t) : t :=
  match r with
  | Json addData =>
      if Body.success addData
      then
        on_page (fun p => showLoading false
                            (showAlert (lit "Task added successfully!") (lit "success") p))
          (loadTasks
             (on_page (fun p => set_aiPreviewHidden true (set_taskInput [] p)) s))
      else addTask_catch (or_else (Body.error addData) (lit "Failed to add task")) s
  | Failed message => addTask_catch message s
  | JsonNull => addTask_catch (cannotReadNull "success") s
  end.

(** [toggleTask(taskId)] up to its await (lines 232-236). *)
Definition toggleTask (taskId : Z) (s : t) : t :=
  fetch (ToggleTask taskId) AwaitToggle s.

(** [toggleTask] from the reply on (lines 238-248). *)
Definition toggleTask_resume (r : reply) (s : t) : t :=
  let failed message :=
    on_page (fun p => showAlert (lit "Error updating task") (lit "danger")
                        (consoleError (lit "Error toggling task:") message p)) s in
  match r with
  | Json data =>
      if Body.success data then loadTasks s
      else failed (or_else (Body.error data) (lit "Failed to toggle task"))
  | Failed message => failed message
  | JsonNull => failed (cannotReadNull "success")
  end.

(** [deleteTask(taskId)] up to its await (lines 251-255). *)
Definition deleteTask (taskId : Z) (s : t) : t :=
  fetch (DeleteTask taskId) AwaitDelete s.

(** [deleteTask] from the reply on (lines 257-268). *)
Definition deleteTask_resume (r : reply) (s : t) : t :=
  let failed message :=
    on_page (fun p => showAlert (lit "Error deleting task") (lit "danger")
                        (consoleError (lit "Error deleting task:") message p)) s in
  match r with
  | Json data =>
      if Body.success data
      then on_page (showAlert (lit "Task deleted successfully!") (lit "success"))
             (loadTasks s)
      else failed (or_else (Body.error data) (lit "Failed to delete task"))
  | Failed message => failed message
  | JsonNull => failed (cannotReadNull "success")
  end.

Definition resume (k : cont) (r : reply) (s : t) : t :=
  match k with
  | AwaitPreview => showAIPreview_resume r s
  | AwaitParse text => addTask_parsed text r s
  | AwaitAdd => addTask_added r s
  | AwaitTasks => loadTasks_resume r s
  | AwaitToggle => toggleTask_resume r s
  | AwaitDelete => deleteTask_resume r s
  end.

(** What the event loop delivers: runs of the listeners of
    [initializeEventListeners] and [addTaskEventListeners], and replies.
    [Toggle] and [Delete] are one run each of a click listener, with the
    integer it read from the [data-task-id] of its button: which buttons of
    the document carry a listener, and how many, is not part of the model,
    so any id may come, and a button bound more than once gives as many
    events. *)
Inductive event :=
| Input (value : jsstring)     (* the user edits [#taskInput] (line 16) *)
| Example (text : jsstring)    (* click on an example item (line 22) *)
| Submit                       (* the form is submitted (line 10) *)
| Toggle (taskId : Z)          (* a toggle listener runs (line 215) *)
| Delete (taskId : Z) (confirmed : bool)
                               (* a delete listener runs, with the answer
                                  to [confirm] (line 223) *)
| Arrive (n : nat) (r : reply). (* the reply to request [n] *)

Fixpoint waiting (n : nat) (l : list (nat * cont)) : option cont :=
  match l with
  | [] => None
  | (m, k) :: l' => if (m =? n)%nat then Some k else waiting n l'
  end.

Fixpoint without (n : nat) (l : list (nat * cont)) : list (nat * cont) :=
  match l with
  | [] => []
  | (m, k) :: l' => if (m =? n)%nat then l' else (m, k) :: without n l'
  end.

Definition step (e : event) (s : t) : t :=
  match e with
  | Input value => showAIPreview value (on_page (set_taskInput value) s)
  | Example text => showAIPreview text (on_page (set_taskInput text) s)
  | Submit => addTask s
  | Toggle taskId => toggleTask taskId s
  | Delete taskId confirmed => if confirmed then deleteTask taskId s else s
  | Arrive n r =>
      match waiting n (pending s) with
      | Some k => resume k r (mk (page s) (net s) (without n (pending s)))
      | None => s
      end
  end.

Definition run (es : list event) (s : t) : t :=
  fold_left (fun s e => step e s) es s.

(** [new AITodoApp()] on a document whose state is [html] (lines 2-6). *)
Definition start (html : Page.t) : t :=
  loadTasks (mk (set_tasks [] html) [] []).

(** What the user sees of the preview: nothing while [#aiPreview] is
    hidden, else the markup of [#aiPreviewText]. *)
Definition shownPreview (s : t) : option jsstring :=
  if aiPreviewHidden (page s) then None else Some (aiPreviewText (page s)).

(** The busy indicator is visible. *)
Definition busy (s : t) : bool := negb (loadingHidden (page s)).

(** The task list as held and as displayed: [this.tasks], the container
    and the four counters. *)
Definition listView (s : t) :=
  (tasks (page s), tasksContainer (page s), emptyState (page s),
   (taskCount (page s), totalTasks (page s), completedTasks (page s),
    pendingTasks (page s))).

(** Number of calls of the create operation of the persistence service. *)
Definition isCreate (r : request) : bool :=
  match r with CreateTask _ _ _ _ => true | _ => false end.

Definition creates (s : t) : nat := List.length (filter isCreate (net s)).


(** Every waiting call waits for a request that was issued. *)
Definition well_formed (s : App.t) : Prop :=
  forall n k, waiting n (pending s) = Some k -> (n < List.length (net s))%nat.

(** The events [es] hold no reply to request [n]. *)
Definition no_reply_to (n : nat) (es : list event) : Prop :=
  forall r, ~ In (Arrive n r) es.

(** A handler leaves the requests and the waiting calls as they are, or
    issues one request and waits for it. *)
Definition grows (s s' : App.t) : Prop :=
  (net s' = net s /\ pending s' = pending s) \/
  (exists q k, net s' = net s ++ [q] /\
               pending s' = pending s ++ [(List.length (net s), k)]).

End App.

(** ** Observations and scenarios *)

Import Page Sync App.

(** A document before the script runs: nothing typed, nothing shown, the
    preview and the busy indicator hidden, an [#emptyState] element inside
    the container. *)
Definition blank : Page.t :=
  Page.mk [] [] true [] []
    (Some (mkEmptyState [] InContainer))
    (lit "0") (lit "0") (lit "0") (lit "0") true [] [].

(** A body that reports success with an interpretation [p]. *)
Definition interpreted (p : Parsed.t) : reply :=
  Json (Body.mk true (Some p) None None).

(** A body that only reports [success]. *)
Definition status (ok : bool) (error : option jsstring) : reply :=
  Json (Body.mk ok None error None).

(** A body that lists tasks. *)
Definition listing (l : list Task.t) : reply :=
  Json (Body.mk false None None (Some l)).

(** The interpretation a reply of the interpretation service carries, when
    it reports success and has a [parsed] object. *)
Definition interpretationOf (r : reply) : option Parsed.t :=
  match r with
  | Json data => if Body.success data then Body.parsed data else None
  | Failed _ | JsonNull => None
  end.

(** The reply reports failure: the transport failed, or [success] is falsy,
    or the body is [null], of which [success] cannot be read.  The message is
    the one of the error the method then handles, [dflt] standing in when
    the service gave none. *)
Definition failureOf (dflt : jsstring) (r : reply) : option jsstring :=
  match r with
  | Json data =>
      if Body.success data then None else Some (or_else (Body.error data) dflt)
  | Failed message => Some message
  | JsonNull => Some (cannotReadNull "success")
  end.

Definition buyMilk : Parsed.t :=
  Parsed.mk (lit "Buy milk") (Some (lit "tomorrow")) None None.


(** The blank page once the script has started and "Buy milk" was typed
    (requests 0 and 1 are the first reload and the preview). *)
Definition typed : App.t := step (Input (lit "Buy milk")) (start blank).

(** Modelled from the spec: the persistence service, whose code is not part
    of the client.  Sections 4.3, 6 and 8 say of it that a create call which
    reports success has added exactly one task, with the fields sent, that a
    call which fails has added none, and that the list operation returns the
    tasks held.  [outcome] is what the service does with one create call. *)
Module Service.

Definition store := list Task.t.

Inductive outcome :=
| Accepted (id : Z)
| Rejected (error : option jsstring)
| Unreachable (message : jsstring).

Definition create (o : outcome) (title : jsstring) (date time : option jsstring)
    (original_text : jsstring) (db : store) : store * reply :=
  match o with
  | Accepted id =>
      (db ++ [Task.mk id title date time original_text false], status true None)
  | Rejected error => (db, status false error)
  | Unreachable message => (db, Failed message)
  end.

Definition listTasks (db : store) : reply := listing db.

End Service.

(** One Create run to its end against the persistence service: the form is
    submitted, the interpretation reply [r] arrives, the create call (if one
    was issued) is served with outcome [o], and the reload (if one was
    issued) is served too.  The result is the client and the store of the
    service. *)
Definition createAgainst (o : Service.outcome) (r : reply)
    (s : App.t) (db : Service.store) : App.t * Service.store :=
  let n := List.length (net s) in
  let s2 := run [Submit; Arrive n r] s in
  match nth_error (net s2) (S n) with
  | Some (CreateTask title date time original_text) =>
      let (db', r') := Service.create o title date time original_text db in
      let s3 := step (Arrive (S n) r') s2 in
      match nth_error (net s3) (S (S n)) with
      | Some GetTasks => (step (Arrive (S (S n)) (Service.listTasks db')) s3, db')
      | _ => (s3, db')
      end
  | _ => (s2, db)
  end.

(** A page that shows one task, with a Toggle and a Delete of it out. *)
Definition milk : Task.t :=
  Task.mk 1 (lit "Buy milk") (Some (lit "tomorrow")) None (lit "Buy milk") false.

Definition showing : App.t :=
  run [Arrive 0 (listing [milk]); Toggle 1; Delete 1 true] (start blank).

(** The container shows a placeholder and no task: the [#emptyState]
    element, displayed, as its only child, or the inline notice. *)
Definition showsPlaceholder (p : Page.t) : Prop :=
  (tasksContainer p = [] /\
   emptyState p = Some (mkEmptyState (lit "block") InContainer)) \/
  (tasksContainer p = noTasksYet /\ emptyState p = None).

(** The container shows the markup of the tasks [l], and no [#emptyState]
    element with them. *)
Definition showsTasks (l : list Task.t) (p : Page.t) : Prop :=
  tasksContainer p = tasksHTML l /\
  match emptyState p with
  | Some e => where_ e = Elsewhere /\ display e = lit "none"
  | None => True
  end.

(** Neither the date nor the time of the task holds a [<]: its two
    unescaped fields open no tag. *)
Definition plainMeta (task : Task.t) : bool :=
  opens_nothing (text_of (Task.date task)) &&
  opens_nothing (text_of (Task.time task)).

(** No text of the interpretation that the preview template prints holds
    a [<]. *)
Definition plainParsed (p : Parsed.t) : bool :=
  opens_nothing (Parsed.title p) &&
  opens_nothing (text_of (Parsed.date p)) &&
  opens_nothing (text_of (Parsed.time p)) &&
  match Parsed.confidence p with
  | Some c => opens_nothing (Number.percent c)
  | None => true
  end.

(** No text of the reply that the program can write into markup without
    escaping it holds a [<]: the message of a rejection, the error text,
    the texts of the interpretation, the dates and times of the tasks.  Markup
    written for such a reply holds the elements of the templates only. *)
Definition plainReply (r : reply) : bool :=
  match r with
  | Failed message => opens_nothing message
  | Json data =>
      opens_nothing (text_of (Body.error data)) &&
      match Body.parsed data with Some p => plainParsed p | None => true end &&
      match Body.tasks data with Some l => forallb plainMeta l | None => true end
  | JsonNull => true
  end.

Definition plainEvent (e : event) : bool :=
  match e with Arrive _ r => plainReply r | _ => true end.

(** A task whose date opens a tag and, in it, an attribute value in single
    quotes, and whose original text holds single quotes. *)
Definition hook : Task.t :=
  Task.mk 1 (lit "Buy milk") (Some (lit "<a title='")) None
    (lit "' onmouseover='alert(1)' ") false.

(** A task whose title and original text hold markup and quotes, with
    plain date and time. *)
Definition scripted : Task.t :=
  Task.mk 2 (lit "<script>alert(1)</script>") (Some (lit "tomorrow"))
    (Some (lit "5pm")) (lit "' onmouseover='alert(1)' & <b>") true.


(** ** Further parts of the program *)

(** [parseInt(string)] as the click listeners call it, with no radix
    (lines 216 and 224): leading white space is skipped, then a sign, then
    the prefix [0x] or [0X] that selects radix 16 instead of 10, then the
    longest run of digits of the radix is read.  The result is [None] for
    NaN (no digit read).  The value of the digits is taken exactly, which
    is what the program computes as long as it does not exceed [2^53]. *)
Module JsNumber.

(** The integers that a Number holds exactly, each of them. *)
Definition safeInteger (z : Z) : bool :=
  ((- 2 ^ 53 <=? z) && (z <=? 2 ^ 53))%Z.

(** Value of a code unit as a digit: [0-9], then [a-z] and [A-Z] from ten
    on. *)
Definition digitValue (c : N) : option N :=
  if (48 <=? c) && (c <=? 57) then Some (c - 48)
  else if (97 <=? c) && (c <=? 122) then Some (c - 87)
  else if (65 <=? c) && (c <=? 90) then Some (c - 55)
  else None.

(** The run of digits of radix [R] at the start of [s], read into [acc];
    [seen] tells whether a digit was read already. *)
Fixpoint digits (R acc : N) (seen : bool) (s : jsstring) : option N :=
  let stop := if seen then Some acc else None in
  match s with
  | [] => stop
  | c :: r =>
      match digitValue c with
      | Some d => if d <? R then digits R (acc * R + d) true r else stop
      | None => stop
      end
  end.

Definition parseInt (string : jsstring) : option Z :=
  let str := trimStart string in
  let (negative, str) :=
    match str with
    | c :: r => if c =? 45 then (true, r)
                else if c =? 43 then (false, r) else (false, str)
    | [] => (false, str)
    end in
  let (R, str) :=
    match str with
    | c :: x :: r =>
        if (c =? 48) && ((x =? 120) || (x =? 88)) then (16, r) else (10, str)
    | _ => (10, str)
    end in
  match digits R 0 false str with
  | Some n => Some (if negative then (- Z.of_N n)%Z else Z.of_N n)
  | None => None
  end.

End JsNumber.
Import JsNumber.

(** What [showAlert(message, type)] gives the element it appends to the
    document (lines 294-299). *)
Module Notice.


End Notice.

(** A code unit that the serialisation of a text node writes as it is. *)
Definition plain (c : N) : bool :=
  negb (c =? amp) && negb (c =? nbsp) && negb (c =? lt) && negb (c =? gt).







(** The page displays the list it holds: the four counters are the numbers
    of [updateStats] for [this.tasks], and the container shows the
    placeholder for no task and the markup of the tasks otherwise. *)
Definition rendered (p : Page.t) : Prop :=
  taskCount p = of_Z (total (tasks p)) /\
  totalTasks p = of_Z (total (tasks p)) /\
  completedTasks p = of_Z (completed (tasks p)) /\
  pendingTasks p = of_Z (Sync.pending (tasks p)) /\
  match tasks p with
  | [] => showsPlaceholder p
  | _ :: _ => showsTasks (tasks p) p
  end.

(** * Properties *)

(** ** Strings *)
Section StringFacts.

Lemma trimStart_blank (s : jsstring) :
  forallb isTrimmed s = true -> trimStart s = [].
Proof.
  induction s as [|c r IH]; simpl; [reflexivity|].
  intros H. apply andb_true_iff in H as [Hc Hr].
  rewrite Hc. exact (IH Hr).
Qed.

Lemma trim_blank (s : jsstring) :
  forallb isTrimmed s = true -> trim s = [].
Proof.
  intros H. unfold trim, trimEnd. rewrite (trimStart_blank s H). reflexivity.
Qed.

Lemma trimStart_fixed (c : N) (r : jsstring) :
  isTrimmed c = false -> trimStart (c :: r) = c :: r.
Proof. intros H. simpl. rewrite H. reflexivity. Qed.

(** A string whose first and last code units are not white space is its own
    trim. *)
Lemma trim_fixed (c d : N) (s : jsstring) :
  isTrimmed c = false -> isTrimmed d = false ->
  trim (c :: s ++ [d]) = c :: s ++ [d].
Proof.
  intros Hc Hd. unfold trim, trimEnd.
  rewrite (trimStart_fixed c _ Hc).
  assert (E : rev (c :: s ++ [d]) = d :: rev (c :: s)).
  { change (c :: s ++ [d]) with ((c :: s) ++ [d]).
    rewrite rev_app_distr. reflexivity. }
  rewrite E, (trimStart_fixed d _ Hd).
  change (rev (d :: rev (c :: s))) with (rev (rev (c :: s)) ++ [d]).
  rewrite rev_involutive. reflexivity.
Qed.

Lemma trimStart_suffix (s : jsstring) :
  exists w, forallb isTrimmed w = true /\ s = w ++ trimStart s.
Proof.
  induction s as [|c r [w [Hw E]]]; simpl.
  - exists []. split; reflexivity.
  - destruct (isTrimmed c) eqn:Hc.
    + exists (c :: w). simpl. rewrite Hc, Hw. split; [reflexivity|].
      f_equal. exact E.
    + exists []. split; reflexivity.
Qed.

(** [trim] only takes white space away, at the two ends. *)
Lemma trim_spec (s : jsstring) :
  exists w1 w2,
    forallb isTrimmed w1 = true /\ forallb isTrimmed w2 = true /\
    s = w1 ++ trim s ++ w2.
Proof.
  destruct (trimStart_suffix s) as [w1 [H1 E1]].
  destruct (trimStart_suffix (rev (trimStart s))) as [w2 [H2 E2]].
  exists w1, (rev w2). split; [exact H1|]. split.
  - rewrite forallb_forall in *. intros x Hx. apply H2, in_rev, Hx.
  - unfold trim, trimEnd. rewrite <- rev_app_distr, <- E2, rev_involutive.
    exact E1.
Qed.

Lemma trimStart_head (s r : jsstring) (c : N) :
  trimStart s = c :: r -> isTrimmed c = false.
Proof.
  induction s as [|a s IH]; simpl; [discriminate|].
  destruct (isTrimmed a) eqn:Ha; [exact IH|].
  intros E. injection E as <- _. exact Ha.
Qed.

Lemma trimEnd_last (s u : jsstring) (z : N) :
  trimEnd s = u ++ [z] -> isTrimmed z = false.
Proof.
  unfold trimEnd. intros E.
  apply (f_equal (@rev N)) in E.
  rewrite rev_involutive, rev_app_distr in E. simpl in E.
  exact (trimStart_head _ _ _ E).
Qed.

Lemma trim_head (s r : jsstring) (c : N) :
  trim s = c :: r -> isTrimmed c = false.
Proof.
  unfold trim. intros E.
  destruct (trimStart_suffix (rev (trimStart s))) as [w [_ Ew]].
  apply (f_equal (@rev N)) in Ew.
  rewrite rev_involutive, rev_app_distr in Ew.
  fold (trimEnd (trimStart s)) in Ew. rewrite E in Ew. simpl in Ew.
  exact (trimStart_head _ _ _ Ew).
Qed.

(** A non-empty string is its own trim exactly when neither its first nor
    its last code unit is white space. *)
Lemma trim_id_iff (s : jsstring) :
  s <> [] ->
  (trim s = s <->
   isTrimmed (hd 32 s) = false /\ isTrimmed (List.last s 32) = false).
Proof.
  intros Hs. destruct (@exists_last _ s Hs) as [u [z Eu]]. split.
  - intros T. split.
    + destruct s as [|c w]; [congruence|]. exact (trim_head _ _ _ T).
    + rewrite Eu, last_last. unfold trim in T. rewrite Eu in T at 2.
      exact (trimEnd_last _ _ _ T).
  - intros [Hc Hz]. rewrite Eu, last_last in Hz.
    destruct u as [|c v]; simpl in Eu; subst s.
    + unfold trim, trimEnd. simpl. rewrite Hz. simpl. rewrite Hz. reflexivity.
    + simpl in Hc. apply trim_fixed; assumption.
Qed.

(** The trim of a string is empty exactly when the string is empty or holds
    white space only. *)
Lemma trim_empty_iff (s : jsstring) :
  trim s = [] <-> forallb isTrimmed s = true.
Proof.
  split; [|apply trim_blank].
  intros E. destruct (trim_spec s) as [w1 [w2 [H1 [H2 S]]]].
  rewrite E in S. rewrite S, forallb_app, H1. exact H2.
Qed.

Lemma escapeHtml_app (s t : jsstring) :
  escapeHtml (s ++ t) = escapeHtml s ++ escapeHtml t.
Proof. unfold escapeHtml. apply flat_map_app. Qed.

Lemma escapeChar_cases (c : N) :
  (c = amp /\ escapeChar c = lit "&amp;") \/
  (c = nbsp /\ escapeChar c = lit "&nbsp;") \/
  (c = lt /\ escapeChar c = lit "&lt;") \/
  (c = gt /\ escapeChar c = lit "&gt;") \/
  ((c =? amp) = false /\ (c =? lt) = false /\ (c =? gt) = false /\
   escapeChar c = [c]).
Proof.
  unfold escapeChar.
  destruct (c =? amp) eqn:Ha; [apply N.eqb_eq in Ha; auto|].
  destruct (c =? nbsp) eqn:Hn; [apply N.eqb_eq in Hn; auto|].
  destruct (c =? lt) eqn:Hl; [apply N.eqb_eq in Hl; auto 6|].
  destruct (c =? gt) eqn:Hg; [apply N.eqb_eq in Hg; auto 6|].
  auto 10.
Qed.

Lemma escapeHtml_tag_free (s : jsstring) : tag_free (escapeHtml s) = true.
Proof.
  unfold tag_free, escapeHtml. induction s as [|c r IH]; [reflexivity|].
  simpl. rewrite forallb_app, IH, andb_true_r.
  destruct (escapeChar_cases c) as [[_ E]|[[_ E]|[[_ E]|[[_ E]|[_ [Hl [Hg E]]]]]]];
    rewrite E; try reflexivity.
  simpl. rewrite Hl, Hg. reflexivity.
Qed.

(** Reading back what [escapeHtml] wrote gives the text itself, and the
    reader is then where the text ended. *)
Lemma read_text_escapeHtml (s rest : jsstring) :
  read_text 0 (escapeHtml s ++ rest) =
  (s ++ fst (read_text 0 rest), snd (read_text 0 rest)).
Proof.
  induction s as [|c r IH].
  - simpl. destruct (read_text 0 rest). reflexivity.
  - change (escapeHtml (c :: r)) with (escapeChar c ++ escapeHtml r).
    rewrite <- app_assoc.
    destruct (escapeChar_cases c) as [[C E]|[[C E]|[[C E]|[[C E]|[Ha [Hl [_ E]]]]]]];
      rewrite E; try subst c.
    + change (read_text 0 (lit "&amp;" ++ escapeHtml r ++ rest))
        with (let (t, q) := read_text 0 (escapeHtml r ++ rest) in (amp :: t, q)).
      rewrite IH. reflexivity.
    + change (read_text 0 (lit "&nbsp;" ++ escapeHtml r ++ rest))
        with (let (t, q) := read_text 0 (escapeHtml r ++ rest) in (nbsp :: t, q)).
      rewrite IH. reflexivity.
    + change (read_text 0 (lit "&lt;" ++ escapeHtml r ++ rest))
        with (let (t, q) := read_text 0 (escapeHtml r ++ rest) in (lt :: t, q)).
      rewrite IH. reflexivity.
    + change (read_text 0 (lit "&gt;" ++ escapeHtml r ++ rest))
        with (let (t, q) := read_text 0 (escapeHtml r ++ rest) in (gt :: t, q)).
      rewrite IH. reflexivity.
    + simpl app. cbn [read_text]. rewrite Hl, Ha, IH. reflexivity.
Qed.

Example escapeHtml_script :
  escapeHtml (lit "<script>alert(1)</script> & co") =
  lit "&lt;script&gt;alert(1)&lt;/script&gt; &amp; co".
Proof. reflexivity. Qed.

(** Quotes are left as they are: the two fields stand in element content,
    where a quote is plain text. *)
Example escapeHtml_quotes :
  escapeHtml (dquote :: lit "it's" ++ [dquote]) = dquote :: lit "it's" ++ [dquote].
Proof. reflexivity. Qed.

Example trim_buy_milk :
  trim (9 :: lit "  Buy milk " ++ [10; 160]) = lit "Buy milk".
Proof. reflexivity. Qed.

Example of_Z_zero : of_Z 0 = lit "0" /\ of_Z (-12) = lit "-12".
Proof. split; reflexivity. Qed.

End StringFacts.

(** ** The event loop *)
Module Loop.
Import Page Sync App.

Lemma waiting_app (n : nat) (l t : list (nat * cont)) :
  waiting n (l ++ t) =
  match waiting n l with Some k => Some k | None => waiting n t end.
Proof.
  induction l as [|[m k] l IH]; simpl; [reflexivity|].
  destruct (m =? n)%nat; [reflexivity | exact IH].
Qed.

Lemma waiting_without (n m : nat) (l : list (nat * cont)) :
  n <> m -> waiting n (without m l) = waiting n l.
Proof.
  intros Hnm. induction l as [|[i k] l IH]; simpl; [reflexivity|].
  destruct (i =? m)%nat eqn:Him.
  - apply Nat.eqb_eq in Him. subst i.
    destruct (m =? n)%nat eqn:Hmn; [apply Nat.eqb_eq in Hmn; congruence | reflexivity].
  - simpl. destruct (i =? n)%nat; [reflexivity | exact IH].
Qed.

Lemma waiting_without_some (n m : nat) (l : list (nat * cont)) (k : cont) :
  waiting n (without m l) = Some k -> exists k', waiting n l = Some k'.
Proof.
  induction l as [|[i c] l IH]; simpl; [discriminate|].
  destruct (i =? m)%nat.
  - destruct (i =? n)%nat; eauto.
  - simpl. destruct (i =? n)%nat; eauto.
Qed.

Ltac grows_tac :=
  first [ left; split; reflexivity
        | right; eexists _, _; split; reflexivity ].

Lemma resume_grows (k : cont) (r : reply) (s : App.t) : grows s (resume k r s).
Proof.
  destruct k, r as [m|b|]; simpl;
    unfold showAIPreview_resume, addTask_parsed, addTask_added,
      loadTasks_resume, toggleTask_resume, deleteTask_resume, addTask_catch,
      loadTasks;
    repeat match goal with
      | |- context [match ?x with _ => _ end] => destruct x
      end;
    grows_tac.
Qed.

Lemma grows_waiting (s s' : App.t) (n : nat) (k : cont) :
  grows s s' -> waiting n (pending s) = Some k ->
  waiting n (pending s') = Some k.
Proof.
  intros [[_ E]|[q [k' [_ E]]]] H; rewrite E; [exact H|].
  rewrite waiting_app, H. reflexivity.
Qed.

Lemma grows_well_formed (s s' : App.t) :
  grows s s' -> well_formed s -> well_formed s'.
Proof.
  intros [[En Ep]|[q [k' [En Ep]]]] W n k; rewrite En, Ep.
  - apply W.
  - rewrite waiting_app, length_app. simpl.
    destruct (waiting n (pending s)) eqn:Hw.
    + intros _. specialize (W n c Hw). lia.
    + destruct (List.length (net s) =? n)%nat eqn:Hn; [|discriminate].
      apply Nat.eqb_eq in Hn. lia.
Qed.

Lemma step_cases (e : event) (s : App.t) :
  grows s (step e s) \/
  (exists n r k, e = Arrive n r /\ waiting n (pending s) = Some k /\
     grows (App.mk (page s) (net s) (without n (pending s))) (step e s)).
Proof.
  destruct e as [v|v| |i|i c|n r]; simpl.
  - left. unfold showAIPreview. destruct (_ || _); grows_tac.
  - left. unfold showAIPreview. destruct (_ || _); grows_tac.
  - left. unfold addTask. destruct (negb _); grows_tac.
  - left. grows_tac.
  - left. destruct c; grows_tac.
  - destruct (waiting n (pending s)) as [k|] eqn:Hw.
    + right. exists n, r, k.
      split; [reflexivity | split; [exact Hw | apply resume_grows]].
    + left. grows_tac.
Qed.

Lemma step_well_formed (e : event) (s : App.t) :
  well_formed s -> well_formed (step e s).
Proof.
  intros W. destruct (step_cases e s) as [G|[n [r [k [_ [_ G]]]]]].
  - exact (grows_well_formed _ _ G W).
  - apply (grows_well_formed _ _ G). intros m c H. simpl in *.
    destruct (waiting_without_some _ _ _ _ H) as [c' H']. exact (W m c' H').
Qed.

Lemma run_snoc (es : list event) (e : event) (s : App.t) :
  run (es ++ [e]) s = step e (run es s).
Proof. unfold run. rewrite fold_left_app. reflexivity. Qed.

Lemma run_app (es es' : list event) (s : App.t) :
  run (es ++ es') s = run es' (run es s).
Proof. unfold run. apply fold_left_app. Qed.

Lemma start_well_formed (html : Page.t) : well_formed (start html).
Proof.
  intros n k. unfold start, loadTasks, fetch. simpl.
  destruct n; [lia | discriminate].
Qed.


(** A waiting call stays as it is until its own reply arrives. *)
Lemma step_keeps_waiting (e : event) (s : App.t) (n : nat) (k : cont) :
  (forall r, e <> Arrive n r) ->
  waiting n (pending s) = Some k -> waiting n (pending (step e s)) = Some k.
Proof.
  intros He H. destruct (step_cases e s) as [G|[m [r [k' [E [_ G]]]]]].
  - exact (grows_waiting _ _ _ _ G H).
  - apply (grows_waiting _ _ _ _ G). simpl.
    rewrite waiting_without; [exact H|].
    intros ->. exact (He r E).
Qed.

Lemma run_keeps_waiting (es : list event) (s : App.t) (n : nat) (k : cont) :
  no_reply_to n es ->
  waiting n (pending s) = Some k -> waiting n (pending (run es s)) = Some k.
Proof.
  revert s. induction es as [|e es IH]; intros s Hn H; [exact H|].
  apply IH.
  - intros r Hr. apply (Hn r). right. exact Hr.
  - apply step_keeps_waiting; [|exact H].
    intros r ->. apply (Hn r). left. reflexivity.
Qed.

(** The request a fresh [fetch] issues is the one its caller waits for. *)
Lemma fetch_waiting (q : request) (k : cont) (s : App.t) :
  well_formed s ->
  waiting (List.length (net s)) (pending (fetch q k s)) = Some k.
Proof.
  intros W. unfold fetch. simpl. rewrite waiting_app.
  destruct (waiting (List.length (net s)) (pending s)) eqn:H.
  - specialize (W _ _ H). lia.
  - simpl. rewrite Nat.eqb_refl. reflexivity.
Qed.

End Loop.

Import Loop.

(** ** Preview Controller *)






(** ** Mutation Coordinator *)

Lemma arrive_resume (s : App.t) (n : nat) (k : cont) (r : reply) :
  waiting n (pending s) = Some k ->
  step (Arrive n r) s = resume k r (App.mk (page s) (net s) (without n (pending s))).
Proof. intros H. unfold step. rewrite H. reflexivity. Qed.

Lemma addTask_parsed_ok (text : jsstring) (r : reply) (p : Parsed.t) (s : App.t) :
  interpretationOf r = Some p ->
  addTask_parsed text r s =
  fetch (CreateTask (Parsed.title p) (Parsed.date p) (Parsed.time p) text)
        AwaitAdd s.
Proof.
  destruct r as [m|b|]; simpl; [discriminate| |discriminate].
  unfold addTask_parsed. destruct (Body.success b); simpl; [|discriminate].
  intros ->. reflexivity.
Qed.

Lemma addTask_parsed_failure (text : jsstring) (r : reply) (m : jsstring) (s : App.t) :
  failureOf (lit "Failed to parse task") r = Some m ->
  addTask_parsed text r s = addTask_catch m s.
Proof.
  destruct r as [m'|b|]; simpl.
  - intros E. injection E as ->. reflexivity.
  - unfold addTask_parsed. destruct (Body.success b); simpl; [discriminate|].
    intros E. injection E as ->. reflexivity.
  - intros E. injection E as <-. reflexivity.
Qed.

(** Whatever the reply of the interpretation service, [addTask] either goes
    on to the create call or ends in its [catch] and [finally] blocks. *)
Lemma addTask_parsed_cases (text : jsstring) (r : reply) (s : App.t) :
  (exists p, interpretationOf r = Some p) \/
  (interpretationOf r = None /\ exists m, addTask_parsed text r s = addTask_catch m s).
Proof.
  destruct r as [m|b|]; simpl.
  - right. split; [reflexivity|]. exists m. reflexivity.
  - unfold addTask_parsed. destruct (Body.success b); simpl.
    + destruct (Body.parsed b) as [p|]; [left; exists p; reflexivity|].
      right. split; [reflexivity|]. eexists. reflexivity.
    + right. split; [reflexivity|]. eexists. reflexivity.
  - right. split; [reflexivity|]. eexists. reflexivity.
Qed.

Lemma addTask_added_cases (r : reply) (s : App.t) :
  (failureOf (lit "Failed to add task") r = None /\
   addTask_added r s =
   on_page (fun p => showLoading false
                       (showAlert (lit "Task added successfully!") (lit "success") p))
     (loadTasks (on_page (fun p => set_aiPreviewHidden true (set_taskInput [] p)) s)))
  \/
  (exists m, failureOf (lit "Failed to add task") r = Some m /\
             addTask_added r s = addTask_catch m s).
Proof.
  destruct r as [m|b|]; simpl.
  - right. exists m. split; reflexivity.
  - destruct (Body.success b).
    + left. split; reflexivity.
    + right. eexists. split; reflexivity.
  - right. eexists. split; reflexivity.
Qed.

Lemma addTask_valid (s : App.t) :
  truthy (trim (taskInput (page s))) = true ->
  step Submit s =
  fetch (ParseTask (trim (taskInput (page s))))
        (AwaitParse (trim (taskInput (page s))))
        (on_page (showLoading true) s).
Proof. intros H. simpl. unfold addTask. rewrite H. reflexivity. Qed.

(** C2 (as amended): Create with a non-empty trimmed text shows the busy
    indicator before its first network call; its own steps do not hide it
    while it goes on to the create call, and hide it on every path on which
    it ends, after the interpretation reply or after the persistence reply.
    Toggle and Delete never show nor hide the indicator, at their start or
    when their reply arrives. *)
Theorem busy_indicator (s : App.t) :
  (truthy (trim (taskInput (page s))) = true ->
     busy (step Submit s) = true /\
     net (step Submit s) = net s ++ [ParseTask (trim (taskInput (page s)))]) /\
  (forall n text r, waiting n (pending s) = Some (AwaitParse text) ->
     match interpretationOf r with
     | Some p =>
         busy (step (Arrive n r) s) = busy s /\
         net (step (Arrive n r) s) =
           net s ++ [CreateTask (Parsed.title p) (Parsed.date p)
                                (Parsed.time p) text]
     | None =>
         busy (step (Arrive n r) s) = false /\ net (step (Arrive n r) s) = net s
     end) /\
  (forall n r, waiting n (pending s) = Some AwaitAdd ->
     busy (step (Arrive n r) s) = false) /\
  (forall taskId, busy (step (Toggle taskId) s) = busy s) /\
  (forall taskId confirmed, busy (step (Delete taskId confirmed) s) = busy s) /\
  (forall n r, waiting n (pending s) = Some AwaitToggle \/
               waiting n (pending s) = Some AwaitDelete ->
     busy (step (Arrive n r) s) = busy s).
Proof.
  repeat apply conj.
  - intros H. rewrite (addTask_valid s H). split; reflexivity.
  - intros n text r H. rewrite (arrive_resume s n _ r H). simpl resume.
    set (s0 := App.mk (page s) (net s) (without n (pending s))).
    destruct (addTask_parsed_cases text r s0) as [[p E]|[E [m Em]]]; rewrite E.
    + rewrite (addTask_parsed_ok text r p s0 E). split; reflexivity.
    + rewrite Em. split; reflexivity.
  - intros n r H. rewrite (arrive_resume s n _ r H). simpl resume.
    set (s0 := App.mk (page s) (net s) (without n (pending s))).
    destruct (addTask_added_cases r s0) as [[_ E]|[m [_ E]]]; rewrite E; reflexivity.
  - reflexivity.
  - intros taskId []; reflexivity.
  - intros n r [H|H]; rewrite (arrive_resume s n _ r H); simpl resume;
      [unfold toggleTask_resume | unfold deleteTask_resume];
      destruct r as [m|b|]; try reflexivity;
      destruct (Body.success b); reflexivity.
Qed.

(** One Create of "Buy milk", and the reply to a Delete, on the blank
    page. *)
Lemma busy_indicator_witness :
  busy (step Submit typed) = true /\
  busy (step (Arrive 2 (interpreted buyMilk)) (step Submit typed)) = true /\
  busy (step (Arrive 2 (Failed (lit "Failed to fetch"))) (step Submit typed)) = false /\
  busy (run [Submit; Arrive 2 (interpreted buyMilk); Arrive 3 (status true None)] typed)
  = false /\
  busy (step (Arrive 3 (status true None)) (run [Toggle 7; Delete 8 true] typed))
  = busy (run [Toggle 7; Delete 8 true] typed).
Proof.
  split; [|split; [|split; [|split]]].
  - apply (busy_indicator typed). reflexivity.
  - exact (proj1 (proj1 (proj2 (busy_indicator (step Submit typed))) 2%nat (lit "Buy milk")
             (interpreted buyMilk) eq_refl)).
  - exact (proj1 (proj1 (proj2 (busy_indicator (step Submit typed))) 2%nat (lit "Buy milk")
             (Failed (lit "Failed to fetch")) eq_refl)).
  - apply (busy_indicator (run [Submit; Arrive 2 (interpreted buyMilk)] typed)).
    reflexivity.
  - apply (busy_indicator (run [Toggle 7; Delete 8 true] typed)).
    right. reflexivity.
Defined.

(** C2 (as stated) fails: a Toggle and a Delete are started on the blank
    page; both requests are out and waiting, and the busy indicator is still
    hidden. *)
Lemma toggle_delete_not_busy :
  let s := run [Toggle 7; Delete 8 true] (start blank) in
  net s = [GetTasks; ToggleTask 7; DeleteTask 8] /\
  waiting 1 (pending s) = Some AwaitToggle /\
  waiting 2 (pending s) = Some AwaitDelete /\
  busy (step (Toggle 7) (start blank)) = false /\
  busy s = false.
Proof. repeat split. Qed.

Lemma tasks_rendered (p : Page.t) :
  tasks (updateStats (renderTasks p)) = tasks p.
Proof.
  unfold updateStats, renderTasks.
  destruct (tasks p) eqn:E, (emptyState p) as [[d []]|]; simpl; auto.
Qed.

Lemma creates_app (s : App.t) (q : request) (l : list request) :
  l = net s ++ [q] ->
  List.length (filter isCreate l) =
  (creates s + if isCreate q then 1 else 0)%nat.
Proof.
  intros ->. unfold creates. rewrite filter_app, length_app. simpl.
  destruct (isCreate q); reflexivity.
Qed.

Lemma nth_error_snoc {A} (l : list A) (x : A) :
  nth_error (l ++ [x]) (List.length l) = Some x.
Proof. rewrite nth_error_app2, Nat.sub_diag by lia. reflexivity. Qed.

(** C5: while a Create waits for the interpretation service, a reply that
    reports failure ([success] falsy, a transport error, or the body [null])
    ends the Create:
    no request is issued (so no create call), the call waits for nothing any
    more, and a danger alert carries the failure.  A reply that carries an
    interpretation makes the Create issue exactly one create call.  The
    reply of the persistence service never makes it issue another one, and a
    failure there is surfaced the same way.  Run against a persistence
    service that adds one task when it accepts a create call and none
    otherwise, a Create leaves exactly one more task, the one the reload then
    shows, when both steps succeed, and no more task when either step
    fails. *)
Theorem create_calls (s : App.t) :
  (forall n text r m,
     waiting n (pending s) = Some (AwaitParse text) ->
     failureOf (lit "Failed to parse task") r = Some m ->
     let s' := step (Arrive n r) s in
     net s' = net s /\ creates s' = creates s /\
     pending s' = without n (pending s) /\
     alerts (page s') =
       alerts (page s) ++ [(lit "Error adding task: " ++ m, lit "danger")]) /\
  (forall n text r p,
     waiting n (pending s) = Some (AwaitParse text) ->
     interpretationOf r = Some p ->
     let s' := step (Arrive n r) s in
     net s' = net s ++ [CreateTask (Parsed.title p) (Parsed.date p)
                                   (Parsed.time p) text] /\
     creates s' = S (creates s)) /\
  (forall n r,
     waiting n (pending s) = Some AwaitAdd ->
     let s' := step (Arrive n r) s in
     creates s' = creates s /\
     match failureOf (lit "Failed to add task") r with
     | Some m =>
         net s' = net s /\
         alerts (page s') =
           alerts (page s) ++ [(lit "Error adding task: " ++ m, lit "danger")]
     | None => net s' = net s ++ [GetTasks]
     end) /\
  (creates (step Submit s) = creates s) /\
  (well_formed s -> truthy (trim (taskInput (page s))) = true ->
   forall o r db,
     let result := createAgainst o r s db in
     match interpretationOf r, o with
     | Some _, Service.Accepted _ =>
         List.length (snd result) = S (List.length db) /\
         tasks (page (fst result)) = snd result /\
         creates (fst result) = S (creates s)
     | Some _, _ =>
         snd result = db /\ tasks (page (fst result)) = tasks (page s) /\
         creates (fst result) = S (creates s)
     | None, _ =>
         snd result = db /\ tasks (page (fst result)) = tasks (page s) /\
         creates (fst result) = creates s
     end).
Proof.
  repeat apply conj.
  - intros n text r m H F s'. subst s'.
    rewrite (arrive_resume s n _ r H). simpl resume.
    rewrite (addTask_parsed_failure text r m _ F). repeat split.
  - intros n text r p H I s'. subst s'.
    rewrite (arrive_resume s n _ r H). simpl resume.
    rewrite (addTask_parsed_ok text r p _ I). split; [reflexivity|].
    unfold creates at 1. simpl net.
    rewrite (creates_app s _ _ eq_refl). simpl. lia.
  - intros n r H s'. subst s'.
    rewrite (arrive_resume s n _ r H). simpl resume.
    set (s0 := App.mk (page s) (net s) (without n (pending s))).
    destruct (addTask_added_cases r s0) as [[F E]|[m [F E]]]; rewrite E, F.
    + split; [|reflexivity]. unfold creates at 1. simpl net.
      rewrite (creates_app s _ _ eq_refl). simpl. lia.
    + repeat split.
  - simpl. unfold addTask. destruct (negb _); [reflexivity|].
    unfold creates at 1. simpl net.
    rewrite (creates_app s _ _ eq_refl). simpl. lia.
  - intros W V o r db result.
    assert (R : result = createAgainst o r s db) by reflexivity.
    clearbody result. unfold createAgainst in R.
    change (run [Submit; Arrive (List.length (net s)) r] s)
      with (step (Arrive (List.length (net s)) r) (step Submit s)) in R.
    rewrite (addTask_valid s V) in R.
    set (text := trim (taskInput (page s))) in R.
    set (s1 := fetch (ParseTask text) (AwaitParse text) (on_page (showLoading true) s)) in R.
    assert (Ws1 : well_formed s1).
    { apply (grows_well_formed (on_page (showLoading true) s));
        [right; eexists _, _; split; reflexivity | exact W]. }
    assert (W1 : waiting (List.length (net s)) (pending s1) = Some (AwaitParse text))
      by exact (fetch_waiting _ _ (on_page (showLoading true) s) W).
    rewrite (arrive_resume s1 _ _ r W1) in R.
    change (resume (AwaitParse text) r ?x) with (addTask_parsed text r x) in R.
    set (s0 := App.mk (page s1) (net s1) (without (List.length (net s)) (pending s1))) in R.
    assert (W0 : well_formed s0).
    { intros i k Hi. simpl in Hi.
      destruct (waiting_without_some _ _ _ _ Hi) as [k' Hk']. exact (Ws1 i k' Hk'). }
    assert (C1 : creates s0 = creates s).
    { unfold creates at 1. simpl net. rewrite (creates_app s _ _ eq_refl). simpl. lia. }
    assert (L1 : List.length (net s0) = S (List.length (net s))).
    { simpl. rewrite length_app. simpl. lia. }
    assert (T0 : tasks (page s0) = tasks (page s)) by reflexivity.
    clearbody s0. clear W1 Ws1. clearbody s1.
    destruct (addTask_parsed_cases text r s0) as [[p E]|[E [m Em]]]; rewrite E.
    + rewrite (addTask_parsed_ok text r p s0 E) in R.
      set (q := CreateTask (Parsed.title p) (Parsed.date p) (Parsed.time p) text) in R.
      set (s2 := fetch q AwaitAdd s0) in R.
      assert (Ws2 : well_formed s2).
      { apply (grows_well_formed s0);
          [right; eexists _, _; split; reflexivity | exact W0]. }
      assert (N2 : nth_error (net s2) (S (List.length (net s))) = Some q).
      { rewrite <- L1. apply nth_error_snoc. }
      assert (W2 : waiting (S (List.length (net s))) (pending s2) = Some AwaitAdd).
      { rewrite <- L1. exact (fetch_waiting q AwaitAdd s0 W0). }
      assert (C2 : creates s2 = S (creates s)).
      { unfold creates at 1. simpl net.
        rewrite (creates_app s0 _ _ eq_refl), C1. simpl. lia. }
      assert (L2 : List.length (net s2) = S (S (List.length (net s)))).
      { simpl. rewrite length_app, L1. simpl. lia. }
      assert (T2 : tasks (page s2) = tasks (page s)) by exact T0.
      rewrite N2 in R. unfold q in R. clearbody s2.
      set (s2' := App.mk (page s2) (net s2) (without (S (List.length (net s))) (pending s2))).
      assert (W2' : well_formed s2').
      { intros i k Hi. simpl in Hi.
        destruct (waiting_without_some _ _ _ _ Hi) as [k' Hk']. exact (Ws2 i k' Hk'). }
      destruct o as [id|e|m]; simpl Service.create in R; cbv iota beta in R;
        rewrite (arrive_resume s2 _ _ _ W2) in R; fold s2' in R.
      * change (resume AwaitAdd (status true None) s2')
          with (on_page (fun p => showLoading false
                  (showAlert (lit "Task added successfully!") (lit "success") p))
                  (loadTasks (on_page (fun p => set_aiPreviewHidden true
                                                  (set_taskInput [] p)) s2'))) in R.
        set (s3 := on_page _ (loadTasks _)) in R.
        assert (N3 : nth_error (net s3) (S (S (List.length (net s)))) = Some GetTasks).
        { rewrite <- L2. apply (nth_error_snoc (net s2) GetTasks). }
        assert (W3 : waiting (S (S (List.length (net s)))) (pending s3) = Some AwaitTasks).
        { rewrite <- L2.
          exact (fetch_waiting GetTasks AwaitTasks
                   (on_page (fun p => set_aiPreviewHidden true (set_taskInput [] p)) s2')
                   W2'). }
        assert (C3 : creates s3 = S (creates s)).
        { unfold creates at 1. simpl net.
          rewrite (creates_app s2 _ _ eq_refl), C2. simpl. lia. }
        rewrite N3, (arrive_resume s3 _ _ _ W3) in R. clearbody s3.
        rewrite R. cbn [fst snd]. rewrite length_app. simpl List.length.
        split; [lia|]. split; [|exact C3].
        unfold Service.listTasks, listing. simpl. apply tasks_rendered.
      * change (resume AwaitAdd (status false e) s2')
          with (addTask_catch (or_else e (lit "Failed to add task")) s2') in R.
        assert (N3 : nth_error (net (addTask_catch (or_else e (lit "Failed to add task")) s2'))
                       (S (S (List.length (net s)))) = None).
        { apply nth_error_None. simpl. lia. }
        rewrite N3 in R. rewrite R. simpl.
        split; [reflexivity|]. split; [exact T2 | exact C2].
      * change (resume AwaitAdd (Failed m) s2') with (addTask_catch m s2') in R.
        assert (N3 : nth_error (net (addTask_catch m s2'))
                       (S (S (List.length (net s)))) = None).
        { apply nth_error_None. simpl. lia. }
        rewrite N3 in R. rewrite R. simpl.
        split; [reflexivity|]. split; [exact T2 | exact C2].
    + rewrite Em in R.
      assert (N2 : nth_error (net (addTask_catch m s0)) (S (List.length (net s))) = None).
      { apply nth_error_None. simpl net. lia. }
      rewrite N2 in R. rewrite R. simpl.
      destruct o; (split; [reflexivity|]; split; [exact T0 | exact C1]).
Qed.

Lemma typed_well_formed : well_formed typed.
Proof. apply step_well_formed, start_well_formed. Qed.

(** Creates of "Buy milk": the interpretation fails or succeeds, the
    service accepts or rejects. *)
Lemma create_calls_witness :
  let s1 := step Submit typed in
  creates (step (Arrive 2 (status false None)) s1) = 0%nat /\
  alerts (page (step (Arrive 2 (status false None)) s1)) =
    [(lit "Error adding task: Failed to parse task", lit "danger")] /\
  net (step (Arrive 2 (interpreted buyMilk)) s1) =
    net s1 ++ [CreateTask (lit "Buy milk") (Some (lit "tomorrow")) None
                          (lit "Buy milk")] /\
  List.length (snd (createAgainst (Service.Accepted 1) (interpreted buyMilk)
                      typed [])) = 1%nat /\
  snd (createAgainst (Service.Rejected None) (interpreted buyMilk) typed []) = [] /\
  snd (createAgainst (Service.Accepted 1) (status false None) typed []) = [].
Proof.
  intros s1.
  destruct (create_calls s1) as [F [K _]].
  destruct (create_calls typed) as [_ [_ [_ [_ A]]]].
  specialize (A typed_well_formed eq_refl).
  split; [|split; [|split; [|split; [|split]]]].
  - exact (proj1 (proj2 (F 2%nat (lit "Buy milk") (status false None)
                           (lit "Failed to parse task") eq_refl eq_refl))).
  - exact (proj2 (proj2 (proj2 (F 2%nat (lit "Buy milk") (status false None)
                                  (lit "Failed to parse task") eq_refl eq_refl)))).
  - exact (proj1 (K 2%nat (lit "Buy milk") (interpreted buyMilk) buyMilk
                    eq_refl eq_refl)).
  - exact (proj1 (A (Service.Accepted 1) (interpreted buyMilk) [])).
  - exact (proj1 (A (Service.Rejected None) (interpreted buyMilk) [])).
  - exact (proj1 (A (Service.Accepted 1) (status false None) [])).
Defined.

(** C3 (as amended): the [original_text] sent to the create operation is the
    value the input box had when Create was invoked with its leading and
    trailing white space and line terminators removed ([trim]), the text
    that was also sent to the interpretation service, whatever happens
    between the submission and the arrival of the interpretation.  It is the
    full input exactly when the input neither starts nor ends with white
    space. *)
Theorem original_text_is_trimmed_input
  (s : App.t) (es : list event) (r : reply) (p : Parsed.t) :
  well_formed s ->
  truthy (trim (taskInput (page s))) = true ->
  no_reply_to (List.length (net s)) es ->
  interpretationOf r = Some p ->
  let text := trim (taskInput (page s)) in
  let s1 := run es (step Submit s) in
  net (step Submit s) = net s ++ [ParseTask text] /\
  net (step (Arrive (List.length (net s)) r) s1) =
    net s1 ++ [CreateTask (Parsed.title p) (Parsed.date p) (Parsed.time p) text] /\
  (text = taskInput (page s) <->
   isTrimmed (hd 32 (taskInput (page s))) = false /\
   isTrimmed (List.last (taskInput (page s)) 32) = false).
Proof.
  intros W V Hes I text s1.
  assert (E : step Submit s = fetch (ParseTask text) (AwaitParse text)
                                (on_page (showLoading true) s))
    by exact (addTask_valid s V).
  split; [rewrite E; reflexivity|]. split.
  - assert (H : waiting (List.length (net s)) (pending s1) = Some (AwaitParse text)).
    { apply run_keeps_waiting; [exact Hes|]. rewrite E.
      exact (fetch_waiting _ _ (on_page (showLoading true) s) W). }
    rewrite (arrive_resume s1 _ _ r H). simpl resume.
    rewrite (addTask_parsed_ok text r p _ I). reflexivity.
  - subst text. apply trim_id_iff.
    intros Ev. rewrite Ev in V. discriminate.
Qed.

(** "Buy milk" is submitted and the user goes on typing before the
    interpretation arrives. *)
Lemma original_text_is_trimmed_input_witness :
  net (step (Arrive 2 (interpreted buyMilk))
         (run [Input (lit "Buy milk and eggs")] (step Submit typed))) =
  [GetTasks; ParseTask (lit "Buy milk"); ParseTask (lit "Buy milk");
   ParseTask (lit "Buy milk and eggs");
   CreateTask (lit "Buy milk") (Some (lit "tomorrow")) None (lit "Buy milk")].
Proof.
  refine (proj1 (proj2 (original_text_is_trimmed_input typed
                          [Input (lit "Buy milk and eggs")]
                          (interpreted buyMilk) buyMilk
                          typed_well_formed eq_refl _ eq_refl))).
  intros r [H|[]]. discriminate H.
Defined.

(** C3 (as stated) fails: the user types "  Buy milk " with two spaces
    before and one after and submits; the create call carries "Buy milk",
    which is not the input. *)
Lemma original_text_not_verbatim :
  let input := lit "  Buy milk " in
  let s := run [Input input; Submit; Arrive 2 (interpreted buyMilk)]
               (start blank) in
  nth_error (net s) 3 =
    Some (CreateTask (lit "Buy milk") (Some (lit "tomorrow")) None
                     (lit "Buy milk")) /\
  lit "Buy milk" <> input.
Proof. split; [reflexivity | discriminate]. Qed.

(** C7: when the trimmed value of the input box is empty (the box is empty
    or holds white space only), Create issues no request at all and leaves
    no call waiting, shows the warning "Please enter a task", and changes
    neither the task list held nor anything displayed of it, nor the busy
    indicator. *)
Theorem empty_input_rejected (s : App.t) :
  trim (taskInput (page s)) = [] ->
  let s' := step Submit s in
  forallb isTrimmed (taskInput (page s)) = true /\
  net s' = net s /\ pending s' = pending s /\
  alerts (page s') =
    alerts (page s) ++ [(lit "Please enter a task", lit "warning")] /\
  tasks (page s') = tasks (page s) /\
  listView s' = listView s /\
  busy s' = busy s.
Proof.
  intros H s'. split; [apply trim_empty_iff, H|].
  subst s'. simpl. unfold addTask. rewrite H. repeat split.
Qed.

(** A space, a tab, a no-break space and a line feed are typed and
    submitted: the preview request of the typing is the only one. *)
Lemma empty_input_rejected_witness :
  let s := step (Input (map N.of_nat [32; 9; 160; 10]%nat)) (start blank) in
  net (step Submit s) = [GetTasks; ParseTask (map N.of_nat [32; 9; 160; 10]%nat)] /\
  alerts (page (step Submit s)) = [(lit "Please enter a task", lit "warning")].
Proof.
  intros s.
  destruct (empty_input_rejected s eq_refl) as [_ [Hn [_ [Ha _]]]].
  split; [exact Hn | exact Ha].
Defined.

(** ** Task Store and projector *)

Lemma listView_rendered_only (s : App.t) (k : cont) (r : reply) :
  (forall data l, k = AwaitTasks -> r = Json data -> Body.tasks data <> Some l) ->
  listView (resume k r s) = listView s.
Proof.
  intros H. destruct k, r as [m|b|]; simpl;
    unfold showAIPreview_resume, addTask_parsed, addTask_added,
      loadTasks_resume, toggleTask_resume, deleteTask_resume, addTask_catch,
      loadTasks;
    try reflexivity;
    try (destruct (Body.success b); try reflexivity;
         destruct (Body.parsed b); reflexivity).
  destruct (Body.tasks b) as [l|] eqn:E; [|reflexivity].
  exfalso. exact (H b l eq_refl eq_refl E).
Qed.

(** C6: starting a Toggle or a Delete changes neither the task list held
    nor what is displayed of it (container, empty-state element, counters).
    Nor does the arrival of its reply: on success it only issues the reload
    request (Delete also shows its success alert), on failure ([success]
    falsy, a transport error, or the body [null]) it issues nothing and shows
    a danger alert.
    The only event that changes the list or its display is the arrival of a
    reload reply that carries tasks, which replaces the list and renders
    it. *)
Theorem list_changes_only_by_reload (s : App.t) :
  (forall taskId, listView (step (Toggle taskId) s) = listView s) /\
  (forall taskId confirmed,
     listView (step (Delete taskId confirmed) s) = listView s) /\
  (forall n r, waiting n (pending s) = Some AwaitToggle ->
     let s' := step (Arrive n r) s in
     listView s' = listView s /\
     match failureOf (lit "Failed to toggle task") r with
     | None =>
         net s' = net s ++ [GetTasks] /\
         pending s' = without n (pending s) ++ [(List.length (net s), AwaitTasks)] /\
         alerts (page s') = alerts (page s)
     | Some _ =>
         net s' = net s /\ pending s' = without n (pending s) /\
         alerts (page s') =
           alerts (page s) ++ [(lit "Error updating task", lit "danger")]
     end) /\
  (forall n r, waiting n (pending s) = Some AwaitDelete ->
     let s' := step (Arrive n r) s in
     listView s' = listView s /\
     match failureOf (lit "Failed to delete task") r with
     | None =>
         net s' = net s ++ [GetTasks] /\
         pending s' = without n (pending s) ++ [(List.length (net s), AwaitTasks)] /\
         alerts (page s') =
           alerts (page s) ++ [(lit "Task deleted successfully!", lit "success")]
     | Some _ =>
         net s' = net s /\ pending s' = without n (pending s) /\
         alerts (page s') =
           alerts (page s) ++ [(lit "Error deleting task", lit "danger")]
     end) /\
  (forall e, listView (step e s) <> listView s ->
     exists n data l,
       e = Arrive n (Json data) /\ waiting n (pending s) = Some AwaitTasks /\
       Body.tasks data = Some l /\
       page (step e s) = updateStats (renderTasks (set_tasks l (page s)))).
Proof.
  repeat apply conj.
  - reflexivity.
  - intros taskId []; reflexivity.
  - intros n r H s'. subst s'. rewrite (arrive_resume s n _ r H).
    split; [refine (listView_rendered_only (App.mk _ _ _) _ r _); discriminate|].
    destruct r as [m|b|]; simpl; [repeat split| |repeat split].
    unfold toggleTask_resume. destruct (Body.success b); repeat split.
  - intros n r H s'. subst s'. rewrite (arrive_resume s n _ r H).
    split; [refine (listView_rendered_only (App.mk _ _ _) _ r _); discriminate|].
    destruct r as [m|b|]; simpl; [repeat split| |repeat split].
    unfold deleteTask_resume. destruct (Body.success b); repeat split.
  - intros e H.
    destruct e as [v|v| |i|i c|n r];
      try (exfalso; apply H; simpl; unfold showAIPreview, addTask;
           match goal with
           | |- context [if ?b then _ else _] => destruct b
           | _ => idtac
           end; reflexivity).
    destruct (waiting n (pending s)) as [k|] eqn:Hw;
      [|exfalso; apply H; simpl; rewrite Hw; reflexivity].
    rewrite (arrive_resume s n k r Hw) in H |- *.
    destruct k;
      try (exfalso; apply H;
           refine (listView_rendered_only (App.mk _ _ _) _ r _); discriminate).
    destruct r as [m|b|];
      [exfalso; apply H; reflexivity| |exfalso; apply H; reflexivity].
    destruct (Body.tasks b) as [l|] eqn:E.
    + exists n, b, l. repeat split; try assumption.
      simpl. unfold loadTasks_resume. rewrite E. reflexivity.
    + exfalso. apply H. simpl. unfold loadTasks_resume. rewrite E. reflexivity.
Qed.

(** Replies to the Toggle and to the Delete of the task shown. *)
Lemma list_changes_only_by_reload_witness :
  listView (step (Arrive 1 (status false None)) showing) = listView showing /\
  alerts (page (step (Arrive 1 (status false None)) showing)) =
    [(lit "Error updating task", lit "danger")] /\
  net (step (Arrive 2 (status true None)) showing) =
    [GetTasks; ToggleTask 1; DeleteTask 1; GetTasks] /\
  listView (step (Arrive 2 (Failed (lit "Failed to fetch"))) showing) =
    listView showing.
Proof.
  destruct (list_changes_only_by_reload showing) as [_ [_ [T [D _]]]].
  split; [|split; [|split]].
  - exact (proj1 (T 1%nat (status false None) eq_refl)).
  - exact (proj2 (proj2 (proj2 (T 1%nat (status false None) eq_refl)))).
  - exact (proj1 (proj2 (D 2%nat (status true None) eq_refl))).
  - exact (proj1 (D 2%nat (Failed (lit "Failed to fetch")) eq_refl)).
Defined.

(** C10 (as amended): when the reply to a reload is a transport or JSON
    failure, or the body [null], or a body without a truthy [tasks] field,
    the task list held and everything displayed of it stay as they were and
    no request is issued.  The danger alert "Error loading tasks" is shown
    on a transport or JSON failure and also for the body [null], of which
    [tasks] cannot be read; for any other body without a truthy [tasks]
    field the whole page stays as it was, with no alert.  A body with tasks
    shows no alert either. *)
Theorem failed_reload_changes_nothing (s : App.t) (n : nat) (r : reply) :
  waiting n (pending s) = Some AwaitTasks ->
  let s' := step (Arrive n r) s in
  net s' = net s /\ pending s' = without n (pending s) /\
  match r with
  | Failed _ | JsonNull =>
      listView s' = listView s /\
      alerts (page s') =
        alerts (page s) ++ [(lit "Error loading tasks", lit "danger")]
  | Json data =>
      match Body.tasks data with
      | None => page s' = page s
      | Some l => tasks (page s') = l /\ alerts (page s') = alerts (page s)
      end
  end.
Proof.
  intros H s'. subst s'. rewrite (arrive_resume s n _ r H). simpl resume.
  unfold loadTasks_resume. destruct r as [m|b|].
  - repeat split.
  - destruct (Body.tasks b) as [l|]; [|repeat split].
    split; [reflexivity|]. split; [reflexivity|]. simpl.
    split; [apply tasks_rendered|].
    unfold updateStats, renderTasks. simpl.
    destruct l, (emptyState (page s)) as [[d []]|]; reflexivity.
  - repeat split.
Qed.

(** Replies to the first reload of the blank page: a body that only reports
    success, a rejected fetch, and the body [null]. *)
Lemma failed_reload_changes_nothing_witness :
  page (step (Arrive 0 (status true None)) (start blank)) = page (start blank) /\
  alerts (page (step (Arrive 0 (Failed (lit "Failed to fetch"))) (start blank))) =
    [(lit "Error loading tasks", lit "danger")] /\
  listView (step (Arrive 0 JsonNull) (start blank)) = listView (start blank).
Proof.
  split; [|split].
  - exact (proj2 (proj2 (failed_reload_changes_nothing (start blank) 0
                           (status true None) eq_refl))).
  - exact (proj2 (proj2 (proj2 (failed_reload_changes_nothing (start blank) 0
                                  (Failed (lit "Failed to fetch")) eq_refl)))).
  - exact (proj1 (proj2 (proj2 (failed_reload_changes_nothing (start blank) 0
                                  JsonNull eq_refl)))).
Defined.

(** C10 (as stated) fails: the reply to the first reload of the blank page
    is the body [null], which is well-formed JSON and has no [tasks] field.
    The list and its display stay as they were, but the response is not
    ignored silently: the alert "Error loading tasks" is shown, as it is for
    a failed fetch. *)
Lemma null_body_is_reported :
  let s := step (Arrive 0 JsonNull) (start blank) in
  listView s = listView (start blank) /\
  alerts (page s) = [(lit "Error loading tasks", lit "danger")] /\
  alerts (page s) <> alerts (page (start blank)).
Proof. split; [reflexivity|]. split; [reflexivity | discriminate]. Qed.

Lemma filter_split_length {A} (f : A -> bool) (l : list A) :
  List.length l =
  (List.length (filter f l) + List.length (filter (fun x => negb (f x)) l))%nat.
Proof.
  induction l as [|a l IH]; [reflexivity|].
  simpl. destruct (f a); simpl; lia.
Qed.

(** C8: for every task list, the empty one included, the counters of
    [updateStats] satisfy total = completed + pending, where completed
    counts the tasks whose [completed] is true and pending, never negative,
    the others; a reload that brings the list writes these numbers into the
    four counters and renders the list: the placeholder when the list is
    empty, the markup of the tasks otherwise. *)
Theorem counters_add_up (l : list Task.t) :
  total l = (completed l + Sync.pending l)%Z /\
  total l = Z.of_nat (List.length l) /\
  completed l = Z.of_nat (List.length (filter Task.completed l)) /\
  Sync.pending l =
    Z.of_nat (List.length (filter (fun t => negb (Task.completed t)) l)) /\
  (forall p : Page.t,
     let p' := updateStats (renderTasks (set_tasks l p)) in
     tasks p' = l /\
     taskCount p' = of_Z (total l) /\ totalTasks p' = of_Z (total l) /\
     completedTasks p' = of_Z (completed l) /\
     pendingTasks p' = of_Z (Sync.pending l) /\
     match l with
     | [] => showsPlaceholder p'
     | _ :: _ => showsTasks l p'
     end) /\
  (forall s n data,
     waiting n (pending s) = Some AwaitTasks -> Body.tasks data = Some l ->
     page (step (Arrive n (Json data)) s) =
     updateStats (renderTasks (set_tasks l (page s)))).
Proof.
  assert (P : Sync.pending l =
              Z.of_nat (List.length (filter (fun t => negb (Task.completed t)) l))).
  { unfold Sync.pending, total, completed.
    rewrite (filter_split_length Task.completed l). lia. }
  split; [unfold Sync.pending; lia|].
  split; [reflexivity|]. split; [reflexivity|]. split; [exact P|]. split.
  - intros p p'. subst p'. split; [apply tasks_rendered|].
    unfold updateStats, renderTasks, showsPlaceholder, showsTasks. simpl.
    destruct l, (emptyState p) as [[d []]|]; simpl; auto 10.
  - intros s n data H E. rewrite (arrive_resume s n _ _ H). simpl.
    unfold loadTasks_resume. rewrite E. reflexivity.
Qed.

(** The first reload of the blank page brings the empty list. *)
Lemma counters_add_up_witness :
  page (step (Arrive 0 (listing [])) (start blank)) =
  updateStats (renderTasks (set_tasks [] (page (start blank)))).
Proof.
  exact (proj2 (proj2 (proj2 (proj2 (proj2 (counters_add_up []))))) (start blank)
           0%nat (Body.mk false None None (Some [])) eq_refl eq_refl).
Defined.

(** ** Markup *)

Lemma numeral_no_quote (u : Decimal.uint) :
  forallb (fun c => negb (c =? dquote)) (lit (NilEmpty.string_of_uint u)) = true.
Proof. induction u; simpl; try reflexivity; exact IHu. Qed.

Lemma of_Z_no_quote (z : Z) :
  forallb (fun c => negb (c =? dquote)) (of_Z z) = true.
Proof.
  destruct z as [|p|p]; [reflexivity | |];
    unfold of_Z; simpl Z.to_int; cbn [NilZero.string_of_int];
    unfold NilZero.string_of_uint;
    pose proof (numeral_no_quote (Pos.to_uint p)) as H;
    destruct (Pos.to_uint p); try reflexivity; try exact H.
Qed.

Lemma middle_opens (task : Task.t) : exists m, middle task = lt :: m.
Proof. eexists. reflexivity. Qed.

Lemma tail_opens (task : Task.t) :
  exists rest, tail task = (dquote :: nl 24) ++ lit "</div>" ++ rest.
Proof. eexists. reflexivity. Qed.

(** [createTaskHTML] embeds the title and the original text of a task only
    through [escapeHtml], between pieces of markup that do not depend on
    them.  The escaped text holds no [<] and no [>], whatever the field
    holds, and a parser that reads character data from where the field was
    put reads the field itself, code unit for code unit, and meets no markup
    before the template's own closing tag. *)
Lemma task_text_is_escaped (task : Task.t) :
  createTaskHTML task =
    head task ++ escapeHtml (Task.title task) ++ middle task ++
    escapeHtml (Task.original_text task) ++ tail task /\
  (forall title' text',
     let task' := Task.mk (Task.id task) title' (Task.date task)
                    (Task.time task) text' (Task.completed task) in
     head task' = head task /\ middle task' = middle task /\
     tail task' = tail task) /\
  tag_free (escapeHtml (Task.title task)) = true /\
  tag_free (escapeHtml (Task.original_text task)) = true /\
  (forall rest,
     data_text (escapeHtml (Task.title task) ++ middle task ++ rest) =
     (Task.title task, middle task ++ rest)) /\
  (exists rest,
     tail task = (dquote :: nl 24) ++ lit "</div>" ++ rest /\
     data_text (escapeHtml (Task.original_text task) ++ tail task) =
     (Task.original_text task ++ dquote :: nl 24, lit "</div>" ++ rest)).
Proof.
  split; [|split; [|split; [|split; [|split]]]].
  - unfold createTaskHTML, concat. simpl List.concat.
    rewrite app_nil_r. reflexivity.
  - intros title' text' task'. subst task'. destruct task.
    split; [reflexivity|]. split; reflexivity.
  - apply escapeHtml_tag_free.
  - apply escapeHtml_tag_free.
  - intros rest. unfold data_text. rewrite read_text_escapeHtml.
    destruct (middle_opens task) as [m ->]. simpl. rewrite app_nil_r. reflexivity.
  - destruct (tail_opens task) as [rest E]. exists rest. split; [exact E|].
    unfold data_text. rewrite read_text_escapeHtml, E. reflexivity.
Qed.

Lemma scan_app (st : state) (a b : jsstring) :
  scan st (a ++ b) = scan (scan st a) b.
Proof. unfold scan. apply fold_left_app. Qed.

(** Character data that holds no [<] leaves the tokenizer in character
    data. *)
Lemma scan_data (s : jsstring) : opens_nothing s = true -> scan Data s = Data.
Proof.
  induction s as [|c r IH]; [reflexivity|].
  simpl. intros H. apply andb_true_iff in H as [Hc Hr].
  unfold scan. simpl. destruct (c =? lt); [discriminate|]. exact (IH Hr).
Qed.

(** A value in double quotes goes on until a double quote. *)
Lemma scan_double_quoted (s : jsstring) :
  forallb (fun c => negb (c =? dquote)) s = true ->
  scan (AttrValue DoubleQuoted) s = AttrValue DoubleQuoted.
Proof.
  induction s as [|c r IH]; [reflexivity|].
  simpl. intros H. apply andb_true_iff in H as [Hc Hr].
  unfold scan. simpl. destruct (c =? dquote); [discriminate|]. exact (IH Hr).
Qed.

Lemma opens_nothing_app (a b : jsstring) :
  opens_nothing (a ++ b) = opens_nothing a && opens_nothing b.
Proof. apply forallb_app. Qed.

Lemma escapeHtml_opens_nothing (s : jsstring) :
  opens_nothing (escapeHtml s) = true.
Proof.
  pose proof (escapeHtml_tag_free s) as H. unfold tag_free in H.
  unfold opens_nothing. rewrite forallb_forall in *.
  intros c Hc. specialize (H c Hc). apply andb_true_iff in H as [H _]. exact H.
Qed.

(** Evaluates the scans of the fixed pieces of a template. *)
Ltac scan_pieces :=
  repeat first
    [ rewrite scan_app
    | rewrite scan_double_quoted by apply of_Z_no_quote
    | match goal with
      | |- context [scan ?st ?x] =>
          let v := eval vm_compute in (scan st x) in
          lazymatch v with
          | AttrValue ?q => is_constructor q
          | _ => is_constructor v
          end;
          change (scan st x) with v
      end ].

Lemma scan_head (task : Task.t) : scan Data (head task) = Data.
Proof.
  unfold head, completedClass, concat. cbn [List.concat].
  destruct (Task.completed task); scan_pieces; reflexivity.
Qed.

Lemma scan_tail (task : Task.t) : scan Data (tail task) = Data.
Proof.
  unfold tail, checkIcon, concat. cbn [List.concat].
  destruct (Task.completed task); scan_pieces; reflexivity.
Qed.

Lemma scan_middle (task : Task.t) :
  plainMeta task = true -> scan Data (middle task) = Data.
Proof.
  unfold plainMeta. intros H. apply andb_true_iff in H as [Hd Ht].
  unfold middle, dateBadge, timeBadge, concat. cbn [List.concat].
  destruct (present (Task.date task)), (present (Task.time task));
    cbn [List.concat]; scan_pieces;
    rewrite ?(scan_data _ Hd); scan_pieces;
    rewrite ?(scan_data _ Ht); scan_pieces; reflexivity.
Qed.

Lemma scan_createTaskHTML (task : Task.t) :
  plainMeta task = true -> scan Data (createTaskHTML task) = Data.
Proof.
  intros H. unfold createTaskHTML, concat. cbn [List.concat].
  rewrite !scan_app, scan_head, (scan_data _ (escapeHtml_opens_nothing _)),
    (scan_middle task H), (scan_data _ (escapeHtml_opens_nothing _)), scan_tail.
  reflexivity.
Qed.

Lemma scan_tasksHTML (l : list Task.t) :
  forallb plainMeta l = true -> scan Data (tasksHTML l) = Data.
Proof.
  induction l as [|t l IH]; [reflexivity|].
  intros H. simpl in H. apply andb_true_iff in H as [Ht Hl].
  change (tasksHTML (t :: l)) with (createTaskHTML t ++ tasksHTML l).
  rewrite scan_app, (scan_createTaskHTML t Ht). exact (IH Hl).
Qed.

Lemma scan_data_prefix (p q : jsstring) :
  opens_nothing (p ++ q) = true -> scan Data p = Data.
Proof.
  rewrite opens_nothing_app. intros H. apply andb_true_iff in H as [H _].
  exact (scan_data p H).
Qed.

(** C4 (as amended): [createTaskHTML] embeds the title and the original
    text of a task only through [escapeHtml], which replaces [&], [<], [>]
    and the no-break space and leaves quotes as they are.  In the markup of
    a task list, parsed as the content of the container from character
    data, the title of a task is read as literal text, code unit for code
    unit, whenever no earlier task of the list holds a [<] in its date or
    time: the tokenizer is in character data from the first code unit of the
    escaped title to its last, and reading it gives the title back.  The
    same holds of the original text whenever, besides, the date and the time
    of the task itself hold no [<]. *)
Theorem task_text_read_as_text (before after : list Task.t) (task : Task.t) :
  forallb plainMeta before = true ->
  let title := escapeHtml (Task.title task) in
  let text := escapeHtml (Task.original_text task) in
  let place := tasksHTML before ++ head task in
  tasksHTML (before ++ task :: after) =
    place ++ title ++ middle task ++ text ++ tail task ++ tasksHTML after /\
  tag_free title = true /\ tag_free text = true /\
  (forall p q, title = p ++ q -> scan Data (place ++ p) = Data) /\
  (forall rest,
     data_text (title ++ middle task ++ rest) =
     (Task.title task, middle task ++ rest)) /\
  (plainMeta task = true ->
   (forall p q, text = p ++ q ->
      scan Data (place ++ title ++ middle task ++ p) = Data) /\
   (exists rest,
      tail task = (dquote :: nl 24) ++ lit "</div>" ++ rest /\
      data_text (text ++ tail task) =
      (Task.original_text task ++ dquote :: nl 24, lit "</div>" ++ rest))).
Proof.
  intros Hb title text place. subst title text place.
  destruct (task_text_is_escaped task) as [E [_ [F1 [F2 [R1 R2]]]]].
  assert (P : scan Data (tasksHTML before ++ head task) = Data).
  { rewrite scan_app, (scan_tasksHTML before Hb). apply scan_head. }
  split; [|split; [exact F1|split; [exact F2|split; [|split; [exact R1|]]]]].
  - assert (A : tasksHTML (before ++ task :: after) =
                tasksHTML before ++ createTaskHTML task ++ tasksHTML after).
    { unfold tasksHTML, concat. rewrite map_app, concat_app. reflexivity. }
    rewrite A, E, <- !app_assoc. reflexivity.
  - intros p q Ep. rewrite scan_app, P. apply (scan_data_prefix p q).
    rewrite <- Ep. apply escapeHtml_opens_nothing.
  - intros Hm. split; [|exact R2].
    intros p q Ep.
    rewrite !app_assoc, scan_app, <- !app_assoc.
    rewrite (app_assoc (tasksHTML before)), scan_app, P, scan_app,
      (scan_data _ (escapeHtml_opens_nothing _)), (scan_middle task Hm).
    apply (scan_data_prefix p q). rewrite <- Ep. apply escapeHtml_opens_nothing.
Qed.

(** The task [scripted] after the task [milk]: the tokenizer is in character
    data at the end of the escaped title and of the escaped original text. *)
Lemma task_text_read_as_text_witness :
  scan Data (tasksHTML [milk] ++ head scripted
             ++ escapeHtml (Task.title scripted)) = Data /\
  scan Data (tasksHTML [milk] ++ head scripted
             ++ escapeHtml (Task.title scripted) ++ middle scripted
             ++ escapeHtml (Task.original_text scripted)) = Data.
Proof.
  pose proof (task_text_read_as_text [milk] [] scripted eq_refl) as H.
  destruct H as [_ [_ [_ [T [_ O]]]]]. split.
  - rewrite app_assoc.
    apply (T (escapeHtml (Task.title scripted)) []). reflexivity.
  - rewrite 2 app_assoc, <- (app_assoc (tasksHTML [milk])), <- app_assoc.
    apply (proj1 (O eq_refl) (escapeHtml (Task.original_text scripted)) []).
    reflexivity.
Defined.

(** C4 (as stated) fails: the date of the task [hook], which the template
    does not escape, opens a tag and an attribute value in single quotes.
    The original text of the task holds none of the characters that
    [escapeHtml] replaces, so it is embedded as it is; the tokenizer reads it
    inside the tag: its first quote ends the value, [onmouseover] is read as
    the name of an attribute and [alert(1)] as its value. *)
Lemma quoted_text_read_as_attribute :
  let text := Task.original_text hook in
  let place := head hook ++ escapeHtml (Task.title hook) ++ middle hook in
  createTaskHTML hook = place ++ escapeHtml text ++ tail hook /\
  escapeHtml text = text /\
  text = lit "' onmouseover" ++ lit "='alert(1)" ++ lit "' " /\
  scan Data place = AttrValue SingleQuoted /\
  scan Data (place ++ lit "' onmouseover") = AttrName /\
  scan Data (place ++ lit "' onmouseover" ++ lit "='alert(1)") =
    AttrValue SingleQuoted /\
  scan Data (place ++ text) = BeforeAttrName /\
  scan Data place <> Data.
Proof.
  repeat split; try reflexivity. vm_compute. discriminate.
Qed.


(** * Further properties *)

(** ** Escaping and numbers *)

Lemma escapeChar_plain (c : N) :
  (plain c = true /\ escapeChar c = [c]) \/
  (plain c = false /\ (4 <= List.length (escapeChar c))%nat).
Proof.
  unfold plain, escapeChar.
  destruct (c =? amp); [right; split; [reflexivity | simpl; lia]|].
  destruct (c =? nbsp); [right; split; [reflexivity | simpl; lia]|].
  destruct (c =? lt); [right; split; [reflexivity | simpl; lia]|].
  destruct (c =? gt); [right; split; [reflexivity | simpl; lia]|].
  left. split; reflexivity.
Qed.

Lemma escapeHtml_length (s : jsstring) :
  (List.length s <= List.length (escapeHtml s))%nat /\
  (List.length (escapeHtml s) = List.length s -> forallb plain s = true).
Proof.
  induction s as [|c r [IH1 IH2]]; [split; reflexivity|].
  change (escapeHtml (c :: r)) with (escapeChar c ++ escapeHtml r).
  rewrite length_app. simpl List.length. simpl forallb.
  destruct (escapeChar_plain c) as [[P E]|[P L]]; rewrite P.
  - rewrite E. simpl. split; [lia|]. intros H. apply IH2. lia.
  - split; [lia|]. intros H. lia.
Qed.

(** X1: [escapeHtml] loses nothing.  Reading its result as character data
    gives the text back, to the last code unit, so two different texts never
    get the same markup; the result is never shorter than the text, and it
    is the text itself exactly when the text holds none of [&], [<], [>] and
    the no-break space. *)
Theorem escapeHtml_round_trip :
  (forall s, data_text (escapeHtml s) = (s, [])) /\
  (forall s t, escapeHtml s = escapeHtml t -> s = t) /\
  (forall s, (List.length s <= List.length (escapeHtml s))%nat) /\
  (forall s, escapeHtml s = s <-> forallb plain s = true).
Proof.
  assert (R : forall s, data_text (escapeHtml s) = (s, [])).
  { intros s. unfold data_text.
    rewrite <- (app_nil_r (escapeHtml s)), read_text_escapeHtml.
    simpl. rewrite app_nil_r. reflexivity. }
  split; [exact R|]. split; [|split].
  - intros s t E. pose proof (R s) as Hs. rewrite E, R in Hs. congruence.
  - intros s. apply escapeHtml_length.
  - intros s. split.
    + intros E. apply escapeHtml_length. rewrite E. reflexivity.
    + intros H. induction s as [|c r IH]; [reflexivity|].
      simpl in H. apply andb_true_iff in H as [Hc Hr].
      change (escapeHtml (c :: r)) with (escapeChar c ++ escapeHtml r).
      rewrite (IH Hr).
      destruct (escapeChar_plain c) as [[_ E]|[P _]]; [|congruence].
      rewrite E. reflexivity.
Qed.

(** A text without special characters is its own markup; two texts that
    differ in a bracket have different markup. *)
Lemma escapeHtml_round_trip_witness :
  escapeHtml (lit "Buy milk") = lit "Buy milk" /\ lit "a<b" = lit "a<b".
Proof.
  split.
  - exact (proj2 (proj2 (proj2 (proj2 escapeHtml_round_trip)) (lit "Buy milk")) eq_refl).
  - exact (proj1 (proj2 escapeHtml_round_trip) (lit "a<b") (lit "a<b") eq_refl).
Defined.

Definition isDecimal (c : N) : Prop := 48 <= c /\ c <= 57.

Lemma decimal_not_trimmed (c : N) : isDecimal c -> isTrimmed c = false.
Proof.
  intros [H1 H2]. unfold isTrimmed, isWhiteSpace, isLineTerminator.
  repeat match goal with
    | |- context [?a =? ?b] =>
        let E := fresh in destruct (N.eqb_spec a b) as [E|E]; [lia|]
    end.
  destruct (N.leb_spec 8192 c); [lia|]. reflexivity.
Qed.

Ltac digit_step :=
  unfold lit; cbn [NilEmpty.string_of_uint list_ascii_of_string map digits];
  match goal with
  | |- context [N_of_ascii ?a] =>
      let v := eval vm_compute in (N_of_ascii a) in change (N_of_ascii a) with v
  end;
  match goal with
  | |- context [digitValue ?c] =>
      let v := eval vm_compute in (digitValue c) in change (digitValue c) with v
  end;
  cbv iota beta;
  match goal with
  | |- context [?d <? 10] => change (d <? 10) with true
  end;
  cbv iota beta.

(** The digits of a decimal numeral, read from left to right. *)
Lemma digits_of_uint (u : Decimal.uint) (acc : N) :
  digits 10 acc true (lit (NilEmpty.string_of_uint u)) =
  Some (DecimalPos.Unsigned.of_lu (Decimal.rev u)
        + acc * 10 ^ DecimalPos.Unsigned.usize u).
Proof.
  revert acc.
  induction u; intros acc;
    [ simpl; f_equal; rewrite N.mul_1_r; reflexivity | .. ];
    digit_step; fold (lit (NilEmpty.string_of_uint u));
    unfold Decimal.rev; simpl Decimal.revapp;
    rewrite DecimalPos.Unsigned.of_lu_revapp; fold (Decimal.rev u);
    rewrite IHu; f_equal;
    simpl DecimalPos.Unsigned.of_lu; simpl DecimalPos.Unsigned.usize;
    rewrite N.pow_succ_r'; nia.
Qed.

Lemma digits_of_numeral (u : Decimal.uint) :
  u <> Decimal.Nil ->
  digits 10 0 false (lit (NilEmpty.string_of_uint u)) = Some (Pos.of_uint u).
Proof.
  intros Hu. rewrite DecimalPos.Unsigned.of_uint_alt.
  destruct u; [congruence | ..];
    digit_step; fold (lit (NilEmpty.string_of_uint u));
    unfold Decimal.rev; simpl Decimal.revapp;
    rewrite DecimalPos.Unsigned.of_lu_revapp; fold (Decimal.rev u);
    rewrite digits_of_uint; f_equal;
    simpl DecimalPos.Unsigned.of_lu; nia.
Qed.

Lemma numeral_decimal (u : Decimal.uint) :
  match lit (NilEmpty.string_of_uint u) with
  | c :: _ => isDecimal c
  | [] => True
  end.
Proof. destruct u; simpl; unfold isDecimal; try exact I; lia. Qed.

Lemma parseInt_numeral (c : N) (r : jsstring) (n : N) :
  isDecimal c ->
  match r with x :: _ => isDecimal x | [] => True end ->
  digits 10 0 false (c :: r) = Some n ->
  parseInt (c :: r) = Some (Z.of_N n) /\
  parseInt (45 :: c :: r) = Some (- Z.of_N n)%Z.
Proof.
  intros Hc Hr Hd. unfold parseInt.
  cbn [trimStart]. rewrite (decimal_not_trimmed c Hc).
  change (isTrimmed 45) with false. cbv iota.
  change (45 =? 45) with true. cbv iota.
  assert (E45 : (c =? 45) = false) by (apply N.eqb_neq; destruct Hc; lia).
  assert (E43 : (c =? 43) = false) by (apply N.eqb_neq; destruct Hc; lia).
  rewrite E45, E43. cbv iota beta.
  destruct r as [|x r].
  - rewrite Hd. split; reflexivity.
  - assert (E1 : (x =? 120) = false) by (apply N.eqb_neq; destruct Hr; lia).
    assert (E2 : (x =? 88) = false) by (apply N.eqb_neq; destruct Hr; lia).
    rewrite E1, E2, andb_false_r. cbv iota beta.
    rewrite Hd. split; reflexivity.
Qed.

(** [parseInt] reads back the decimal text of every integer. *)
Lemma parseInt_of_Z (z : Z) : parseInt (of_Z z) = Some z.
Proof.
  destruct z as [|p|p].
  - reflexivity.
  - unfold of_Z. simpl Z.to_int. cbn [NilZero.string_of_int].
    pose proof (DecimalPos.Unsigned.to_uint_nonnil p) as Hn.
    pose proof (DecimalPos.Unsigned.of_to p) as Hp.
    pose proof (digits_of_numeral _ Hn) as Hd.
    pose proof (numeral_decimal (Pos.to_uint p)) as Hh.
    unfold NilZero.string_of_uint.
    destruct (Pos.to_uint p) eqn:Eu; [congruence | ..];
      rewrite <- Eu in *;
      (destruct (lit (NilEmpty.string_of_uint (Pos.to_uint p))) as [|c r] eqn:El;
       [rewrite Eu in El; discriminate El|]);
      rewrite Hp in Hd;
      (refine (proj1 (parseInt_numeral c r (Npos p) Hh _ Hd));
       rewrite Eu in El; injection El as _ <-; apply numeral_decimal).
  - unfold of_Z. simpl Z.to_int. cbn [NilZero.string_of_int].
    pose proof (DecimalPos.Unsigned.to_uint_nonnil p) as Hn.
    pose proof (DecimalPos.Unsigned.of_to p) as Hp.
    pose proof (digits_of_numeral _ Hn) as Hd.
    pose proof (numeral_decimal (Pos.to_uint p)) as Hh.
    change (lit (String "-" (NilZero.string_of_uint (Pos.to_uint p))))
      with (45 :: lit (NilZero.string_of_uint (Pos.to_uint p))).
    unfold NilZero.string_of_uint.
    destruct (Pos.to_uint p) eqn:Eu; [congruence | ..];
      rewrite <- Eu in *;
      (destruct (lit (NilEmpty.string_of_uint (Pos.to_uint p))) as [|c r] eqn:El;
       [rewrite Eu in El; discriminate El|]);
      rewrite Hp in Hd;
      (refine (proj2 (parseInt_numeral c r (Npos p) Hh _ Hd));
       rewrite Eu in El; injection El as _ <-; apply numeral_decimal).
Qed.

(** X2: the id a task is rendered with is the id its buttons act on, for
    every id that is an integer from [-2^53] to [2^53] (beyond that range
    the program's Numbers are not exact and are printed otherwise).
    [createTaskHTML] writes the decimal text of the id into the
    [data-task-id] attribute of the toggle button and of the delete button;
    that text holds no double quote, so it is the whole value of the
    attribute; and [parseInt], which the click listeners apply to the value,
    gives back the id. *)
Theorem rendered_id_read_back (task : Task.t) :
  safeInteger (Task.id task) = true ->
  (exists a b c,
     tail task =
     a ++ tpl "toggle-btn` data-task-id=`" ++ of_Z (Task.id task) ++ dquote :: b
       ++ tpl "delete-btn` data-task-id=`" ++ of_Z (Task.id task) ++ dquote :: c) /\
  forallb (fun c => negb (c =? dquote)) (of_Z (Task.id task)) = true /\
  parseInt (of_Z (Task.id task)) = Some (Task.id task).
Proof.
  intros _.
  split; [|split; [apply of_Z_no_quote | apply parseInt_of_Z]].
  exists ((dquote :: nl 24) ++ lit "</div>" ++ nl 20 ++ lit "</div>" ++ nl 20 ++ nl 20 ++
          tpl "<div class=`btn-group btn-group-sm ms-3` role=`group`>" ++ nl 24 ++
          tpl "<button type=`button` class=`btn btn-outline-success ").
  exists (lit ">" ++ nl 28 ++ tpl "<i class=`" ++ checkIcon task ++ tpl "`></i>" ++
          nl 24 ++ lit "</button>" ++ nl 24 ++
          tpl "<button type=`button` class=`btn btn-outline-danger ").
  eexists.
  unfold tail, concat. cbn [List.concat]. rewrite <- ?app_assoc. reflexivity.
Qed.

(** The listener of a button of the task [milk] reads the id 1. *)
Lemma rendered_id_read_back_witness :
  parseInt (of_Z (Task.id milk)) = Some (Task.id milk).
Proof.
  exact (proj2 (proj2 (rendered_id_read_back milk eq_refl))).
Defined.

(** ** Single steps *)

Lemma trim_idempotent (s : jsstring) : trim (trim s) = trim s.
Proof.
  destruct (trim s) as [|c r] eqn:E; [reflexivity|].
  apply trim_id_iff; [discriminate|]. split.
  - exact (trim_head s r c E).
  - destruct (@exists_last _ (c :: r)) as [u [z Eu]]; [discriminate|].
    rewrite Eu, last_last. unfold trim in E. rewrite Eu in E.
    exact (trimEnd_last _ _ _ E).
Qed.

(** X3: what Create sends to the interpretation service.  Either the
    trimmed value of the input box is empty and nothing is sent, or exactly
    one request is sent, with a text that is not empty, neither starts nor
    ends with white space or a line terminator, and is its own trim. *)
Theorem create_text_is_trimmed (s : App.t) :
  let text := trim (taskInput (page s)) in
  (text = [] /\ net (step Submit s) = net s) \/
  (text <> [] /\ net (step Submit s) = net s ++ [ParseTask text] /\
   isTrimmed (hd 32 text) = false /\
   isTrimmed (List.last text 32) = false /\
   trim text = text).
Proof.
  intros text. subst text. simpl step. unfold addTask.
  destruct (trim (taskInput (page s))) as [|c r] eqn:E.
  - left. split; reflexivity.
  - right. split; [discriminate|]. split; [reflexivity|].
    rewrite <- E. pose proof (trim_idempotent (taskInput (page s))) as I.
    assert (Ne : trim (taskInput (page s)) <> []) by (rewrite E; discriminate).
    destruct (proj1 (trim_id_iff _ Ne) I) as [H1 H2].
    split; [exact H1 | split; [exact H2 | exact I]].
Qed.

(** X4: an edit of the input box (or a click on an example) asks for a
    preview exactly when the text has three code units or more, white space
    included: a shorter text issues no request and hides the preview, a
    longer one issues one request for the text as typed, untrimmed, and
    leaves the preview as it is until the reply arrives. *)
Theorem preview_threshold (s : App.t) (value : jsstring) :
  let s' := step (Input value) s in
  taskInput (page s') = value /\
  step (Example value) s = s' /\
  ((List.length value < 3)%nat ->
     net s' = net s /\ pending s' = pending s /\ shownPreview s' = None) /\
  ((3 <= List.length value)%nat ->
     net s' = net s ++ [ParseTask value] /\
     pending s' = pending s ++ [(List.length (net s), AwaitPreview)] /\
     shownPreview s' = shownPreview s).
Proof.
  intros s'. subst s'. simpl step. unfold showAIPreview.
  split; [destruct (_ || _); reflexivity|]. split; [reflexivity|]. split.
  - intros H.
    assert (E : negb (truthy value) || (List.length value <? 3)%nat = true).
    { apply orb_true_iff. right. apply Nat.ltb_lt. exact H. }
    rewrite E. repeat split.
  - intros H.
    assert (E : negb (truthy value) || (List.length value <? 3)%nat = false).
    { destruct value as [|c v]; [simpl in H; lia|]. simpl negb.
      apply Nat.ltb_ge. exact H. }
    rewrite E. repeat split.
Qed.

(** Two spaces are below the threshold; three spaces are sent as they
    are. *)
Lemma preview_threshold_witness :
  net (step (Input [32; 32]) (start blank)) = [GetTasks] /\
  net (step (Input [32; 32; 32]) (start blank)) =
    [GetTasks; ParseTask [32; 32; 32]].
Proof.
  split.
  - refine (proj1 (proj1 (proj2 (proj2 (preview_threshold (start blank) [32; 32]))) _)).
    simpl. lia.
  - refine (proj1 (proj2 (proj2 (proj2 (preview_threshold (start blank) [32; 32; 32]))) _)).
    simpl. lia.
Defined.

(** X5: the preview touches nothing but the preview.  An edit of the input
    box, and the arrival of the reply to a preview request, change neither
    the task list held or displayed, nor the alerts, nor the busy indicator,
    and issue no create call; the arrival issues no request at all and
    leaves the input box alone.  A failed preview is reported on the console
    only. *)
Theorem preview_touches_only_preview (s : App.t) :
  (forall value,
     let s' := step (Input value) s in
     listView s' = listView s /\ alerts (page s') = alerts (page s) /\
     busy s' = busy s /\ creates s' = creates s /\
     console (page s') = console (page s)) /\
  (forall n r, waiting n (pending s) = Some AwaitPreview ->
     let s' := step (Arrive n r) s in
     listView s' = listView s /\ alerts (page s') = alerts (page s) /\
     busy s' = busy s /\ net s' = net s /\
     taskInput (page s') = taskInput (page s) /\
     console (page s') =
       console (page s) ++
       match r with
       | Failed message => [(lit "Error parsing task:", message)]
       | Json _ => []
       | JsonNull => [(lit "Error parsing task:", cannotReadNull "success")]
       end).
Proof.
  split.
  - intros value s'. subst s'. simpl step. unfold showAIPreview.
    destruct (_ || _); [repeat split|].
    split; [reflexivity|]. split; [reflexivity|]. split; [reflexivity|].
    split; [|reflexivity].
    unfold creates at 1. simpl net.
    rewrite (creates_app s _ _ eq_refl). simpl. lia.
  - intros n r H s'. subst s'. rewrite (arrive_resume s n _ r H).
    simpl resume. unfold showAIPreview_resume.
    destruct r as [m|b|]; [repeat split| |repeat split].
    destruct (Body.success b), (Body.parsed b); simpl;
      rewrite app_nil_r; repeat split.
Qed.

(** The reply to the preview of "Buy milk" fails. *)
Lemma preview_touches_only_preview_witness :
  alerts (page (step (Arrive 1 (Failed (lit "Failed to fetch"))) typed)) = [] /\
  console (page (step (Arrive 1 (Failed (lit "Failed to fetch"))) typed)) =
    [(lit "Error parsing task:", lit "Failed to fetch")].
Proof.
  pose proof (proj2 (preview_touches_only_preview typed) 1%nat
                (Failed (lit "Failed to fetch")) eq_refl) as H.
  split; [exact (proj1 (proj2 H)) | exact (proj2 (proj2 (proj2 (proj2 (proj2 H)))))].
Defined.

Lemma taskInput_kept (k : cont) (r : reply) (s : App.t) :
  (k = AwaitAdd -> failureOf (lit "Failed to add task") r <> None) ->
  taskInput (page (resume k r s)) = taskInput (page s).
Proof.
  intros H. destruct k, r as [m|b|]; simpl;
    unfold showAIPreview_resume, addTask_parsed, addTask_added,
      loadTasks_resume, toggleTask_resume, deleteTask_resume, addTask_catch,
      loadTasks, updateStats, renderTasks;
    try reflexivity;
    try (destruct (Body.success b) eqn:E; try reflexivity;
         try (destruct (Body.parsed b); reflexivity);
         exfalso; apply (H eq_refl); simpl; rewrite E; reflexivity).
  destruct (Body.tasks b) as [l|]; [|reflexivity]. simpl.
  destruct l, (emptyState (page s)) as [[d []]|]; reflexivity.
Qed.

(** X6: the text in the input box is changed by the user's edits (or a
    click on an example) and by one thing besides: the arrival of a reply of
    the persistence service that reports a successful create, which empties
    the box and hides the preview.  So a Create that fails, at either step,
    leaves the typed text in the box. *)
Theorem input_cleared_only_on_success (s : App.t) (e : event) :
  taskInput (page (step e s)) <> taskInput (page s) ->
  (exists value, (e = Input value \/ e = Example value) /\
                 taskInput (page (step e s)) = value) \/
  (exists n r, e = Arrive n r /\ waiting n (pending s) = Some AwaitAdd /\
               failureOf (lit "Failed to add task") r = None /\
               taskInput (page (step e s)) = [] /\
               shownPreview (step e s) = None).
Proof.
  intros H. destruct e as [v|v| |i|i c|n r].
  - left. exists v. split; [left; reflexivity|].
    simpl. unfold showAIPreview. destruct (_ || _); reflexivity.
  - left. exists v. split; [right; reflexivity|].
    simpl. unfold showAIPreview. destruct (_ || _); reflexivity.
  - exfalso. apply H. simpl. unfold addTask. destruct (negb _); reflexivity.
  - exfalso. apply H. reflexivity.
  - exfalso. apply H. destruct c; reflexivity.
  - right. destruct (waiting n (pending s)) as [k|] eqn:Hw;
      [|exfalso; apply H; simpl; rewrite Hw; reflexivity].
    rewrite (arrive_resume s n k r Hw) in H |- *.
    destruct (failureOf (lit "Failed to add task") r) as [m|] eqn:F.
    + exfalso. apply H.
      refine (taskInput_kept k r (App.mk _ _ _) _). intros _. rewrite F. discriminate.
    + destruct k;
        try (exfalso; apply H;
             refine (taskInput_kept _ r (App.mk _ _ _) _); discriminate).
      exists n, r. split; [reflexivity|]. split; [exact Hw|].
      split; [exact F|].
      destruct r as [m|b|]; [discriminate F| |discriminate F]. simpl in F |- *.
      destruct (Body.success b); [|discriminate F]. split; reflexivity.
Qed.

(** "Buy milk" is submitted and interpreted; the create call succeeds. *)
Lemma input_cleared_only_on_success_witness :
  let s := run [Submit; Arrive 2 (interpreted buyMilk)] typed in
  let e := Arrive 3 (status true None) in
  (exists value, (e = Input value \/ e = Example value) /\
                 taskInput (page (step e s)) = value) \/
  (exists n r, e = Arrive n r /\ waiting n (pending s) = Some AwaitAdd /\
               failureOf (lit "Failed to add task") r = None /\
               taskInput (page (step e s)) = [] /\
               shownPreview (step e s) = None).
Proof.
  apply (input_cleared_only_on_success
           (run [Submit; Arrive 2 (interpreted buyMilk)] typed)
           (Arrive 3 (status true None))).
  vm_compute. discriminate.
Defined.



(** ** Whole runs *)

Lemma run_cons (e : event) (es : list event) (s : App.t) :
  run (e :: es) s = run es (step e s).
Proof. reflexivity. Qed.












Lemma reload_rendered (l : list Task.t) (p : Page.t) :
  rendered (updateStats (renderTasks (set_tasks l p))).
Proof.
  unfold rendered. rewrite tasks_rendered.
  unfold updateStats, renderTasks, showsPlaceholder, showsTasks. simpl.
  destruct l, (emptyState p) as [[d []]|]; simpl; auto 10.
Qed.


Lemma step_listView (e : event) (s : App.t) :
  listView (step e s) = listView s \/
  (exists l, page (step e s) = updateStats (renderTasks (set_tasks l (page s)))).
Proof.
  destruct e as [v|v| |i|i c|n r];
    try (left; simpl; unfold showAIPreview, addTask;
         match goal with
         | |- context [if ?b then _ else _] => destruct b
         | _ => idtac
         end; reflexivity).
  destruct (waiting n (pending s)) as [k|] eqn:Hw;
    [|left; simpl; rewrite Hw; reflexivity].
  rewrite (arrive_resume s n k r Hw).
  destruct k;
    try (left; refine (listView_rendered_only (App.mk _ _ _) _ r _); discriminate).
  destruct r as [m|b|]; [left; reflexivity| |left; reflexivity].
  simpl. unfold loadTasks_resume.
  destruct (Body.tasks b) as [l|]; [right; exists l; reflexivity | left; reflexivity].
Qed.


(** X11: rendering is idempotent, and the pages that display their list are
    its fixed points.  Rendering twice, or updating the counters twice,
    gives what doing it once gives, in either order of the two; and a page
    is left exactly as it is by [renderTasks] followed by [updateStats] if
    and only if it displays the list it holds.  So a reload that brings the
    list already held and displayed changes nothing on the page. *)
Theorem render_idempotent (p : Page.t) :
  renderTasks (renderTasks p) = renderTasks p /\
  updateStats (updateStats p) = updateStats p /\
  renderTasks (updateStats p) = updateStats (renderTasks p) /\
  (updateStats (renderTasks p) = p <-> rendered p) /\
  (forall s n data,
     waiting n (pending s) = Some AwaitTasks ->
     Body.tasks data = Some (tasks (page s)) -> rendered (page s) ->
     page (step (Arrive n (Json data)) s) = page s).
Proof.
  assert (F : forall q, rendered q -> updateStats (renderTasks q) = q).
  { intros q. unfold rendered, showsPlaceholder, showsTasks, updateStats, renderTasks.
    destruct q as [l i ph pt c e c1 c2 c3 c4 lh a co]. simpl.
    intros [-> [-> [-> [-> H]]]].
    destruct l; simpl in *.
    - destruct H as [[-> ->]|[-> ->]]; reflexivity.
    - destruct H as [-> H]. destruct e as [[d []]|]; simpl in *;
        try reflexivity; destruct H as [H1 H2]; try discriminate.
      rewrite H2. reflexivity. }
  split; [|split; [|split; [|split]]].
  - unfold renderTasks. destruct p as [l i ph pt c e c1 c2 c3 c4 lh a co]. simpl.
    destruct l, e as [[d []]|]; reflexivity.
  - reflexivity.
  - unfold renderTasks, updateStats.
    destruct p as [l i ph pt c e c1 c2 c3 c4 lh a co]. simpl.
    destruct l, e as [[d []]|]; reflexivity.
  - split; [|apply F].
    intros E. rewrite <- E.
    replace (renderTasks p) with (renderTasks (set_tasks (tasks p) p)).
    + apply reload_rendered.
    + destruct p; reflexivity.
  - intros s n data H E R. rewrite (arrive_resume s n _ _ H). simpl.
    unfold loadTasks_resume. rewrite E. simpl.
    replace (set_tasks (tasks (page s)) (page s)) with (page s)
      by (destruct (page s); reflexivity).
    apply F, R.
Qed.

(** The list [milk] is displayed and a second reload brings it again. *)
Lemma render_idempotent_witness :
  let s := run [Arrive 0 (listing [milk]); Toggle 1; Arrive 1 (status true None)]
               (start blank) in
  page (step (Arrive 2 (listing [milk])) s) = page s.
Proof.
  intros s.
  refine (proj2 (proj2 (proj2 (proj2 (render_idempotent (page s))))) s 2%nat
            (Body.mk false None None (Some [milk])) eq_refl eq_refl _).
  apply (proj1 (proj1 (proj2 (proj2 (proj2 (render_idempotent (page s))))))).
  reflexivity.
Defined.

Lemma step_emptyState (e : event) (s : App.t) :
  emptyState (page s) = None -> emptyState (page (step e s)) = None.
Proof.
  intros H. destruct (step_listView e s) as [E|[l E]].
  - unfold listView in E. injection E as _ _ E _ _ _ _. congruence.
  - rewrite E. unfold updateStats, renderTasks. simpl. rewrite H.
    destruct l; reflexivity.
Qed.

(** X12: the [#emptyState] element does not come back, in runs from the
    start in which no reply holds a [<] in a text that the program writes
    into markup without escaping it (so that the markup it writes holds no
    element of that id).  A reload that brings tasks while the element is a
    child of the container takes it out of the document; and once the
    document has no such element, no event of such a run brings one back, so
    that every later reload of an empty list shows the inline notice "No
    tasks yet. Add your first one above." instead. *)
Theorem emptyState_never_returns (html : Page.t) (before es : list event) :
  forallb plainEvent (before ++ es) = true ->
  let s := run before (start html) in
  (forall n data task l d,
     waiting n (pending s) = Some AwaitTasks ->
     Body.tasks data = Some (task :: l) ->
     forallb plainMeta (task :: l) = true ->
     emptyState (page s) = Some (mkEmptyState d InContainer) ->
     emptyState (page (step (Arrive n (Json data)) s)) = None) /\
  (emptyState (page s) = None ->
   emptyState (page (run es s)) = None /\
   (forall n data,
      waiting n (pending (run es s)) = Some AwaitTasks ->
      Body.tasks data = Some [] ->
      tasksContainer (page (step (Arrive n (Json data)) (run es s))) = noTasksYet)).
Proof.
  intros _ s. split.
  - intros n data task l d H E _ Hd. rewrite (arrive_resume s n _ _ H). simpl.
    unfold loadTasks_resume. rewrite E. simpl.
    unfold updateStats, renderTasks. simpl. rewrite Hd. reflexivity.
  - intros H.
    assert (G : emptyState (page (run es s)) = None).
    { generalize s H. clear s H.
      induction es as [|e es IH]; intros s H; [exact H|].
      rewrite run_cons. apply IH, step_emptyState, H. }
    split; [exact G|].
    intros n data Hw E. rewrite (arrive_resume _ n _ _ Hw). simpl.
    unfold loadTasks_resume. rewrite E. simpl.
    unfold updateStats, renderTasks. simpl. rewrite G. reflexivity.
Qed.

(** On the blank page the first reload brings [milk], which takes
    [#emptyState] away; after a Delete the next reload brings no task. *)
Lemma emptyState_never_returns_witness :
  let s := step (Arrive 0 (listing [milk])) (start blank) in
  emptyState (page s) = None /\
  tasksContainer
    (page (step (Arrive 2 (listing []))
             (run [Delete 1 true; Arrive 1 (status true None)] s))) = noTasksYet.
Proof.
  intros s. split.
  - exact (proj1 (emptyState_never_returns blank [] [] eq_refl) 0%nat
             (Body.mk false None None (Some [milk])) milk [] [] eq_refl eq_refl
             eq_refl eq_refl).
  - exact (proj2 (proj2 (emptyState_never_returns blank
                            [Arrive 0 (listing [milk])]
                            [Delete 1 true; Arrive 1 (status true None)] eq_refl)
                    eq_refl)
             2%nat (Body.mk false None None (Some [])) eq_refl eq_refl).
Defined.
